(** * couchbeans: the CouchDB client of [src/couchbeans/client.py]

    A shallow embedding of [CouchClient]: the retry loop of the query
    executor, the document operations built on it, and the mutable
    dictionaries that callers hand in. *)

From stdpp Require Import gmap strings list fin_maps pretty.
From Stdlib Require Import ZArith Lia.

Set Warnings "-register-all".

Local Open Scope Z_scope.
Local Open Scope string_scope.

(** ** JSON values

    The Python values that travel as request and response bodies.  Objects
    are dictionaries with string keys, numbers are Python integers. *)

Inductive json : Type :=
| JNull : json
| JBool : bool -> json
| JNum : Z -> json
| JStr : string -> json
| JArr : list json -> json
| JObj : gmap string json -> json.

Abbreviation dict := (gmap string json).

(** ** Exceptions *)

(** Modelled from the spec: [exceptions.py] is imported by the client but is
    not among the sources.  [CouchHTTPError] is built from a parsed body and
    a status code and exposes [code]; [ObjectAlreadyExistsException] is built
    from a message and the name of the object.  [ConnectionError] is the
    exception raised on line 61 once the retries are used up.  [KeyError]
    and [TypeError] are the Python built-ins raised by subscripting.
    [TransportError] is any other exception that comes out of the session
    call or of [response.json()], by the name of its class
    ([JSONDecodeError], [InvalidSchema], ...). *)
Inductive exn : Type :=
| CouchHTTPError (message : json) (code : Z)
| ObjectAlreadyExistsException (message : string) (object_name : string)
| ConnectionError (message : string)
| KeyError (key : string)
| TypeError
| TransportError (name : string).

(** The outcome of running a piece of the client: a value, a raised
    exception, or [Diverge] when a loop was cut short by its fuel (shown
    below never to happen for the retry loop). *)
Inductive result (A : Type) : Type :=
| Ok (a : A)
| Raise (e : exn)
| Diverge.
Arguments Ok {A} a.
Arguments Raise {A} e.
Arguments Diverge {A}.

(** ** Requests and the transport *)

Inductive HTTPMethod : Type := GET | POST | PUT | DELETE.

(** One call of a verb method of [requests.Session]: the verb, the URL, the
    [json=] argument when the verb method is given one, and [timeout=]. *)
Record request : Type := Request {
  req_method : HTTPMethod;
  req_url : string;
  req_json : option json;
  req_timeout : Z
}.

(** What one attempt yields: a response with its status code and its body
    as [response.json()] parses it, one of the two exceptions the retry
    loop catches, or [Failed]: any other exception, raised by the session
    call or by [response.json()] on a body that is not JSON, which no
    handler of the loop catches. *)
Inductive reply : Type :=
| Response (status_code : Z) (body : json)
| ConnectionRefused
| TimedOut
| Failed (name : string).

Definition is_transient (r : reply) : bool :=
  match r with
  | Response _ _ | Failed _ => false
  | ConnectionRefused | TimedOut => true
  end.

(** ** Python string helpers *)

Module PyStr.

(** [s.endswith(suffix)] *)
Definition endswith (s suffix : string) : bool :=
  let n := String.length s in
  let m := String.length suffix in
  if (m <=? n)%nat then String.eqb (String.substring (n - m) m s) suffix else false.

(** [s[:-1]] *)
Definition drop_last (s : string) : string :=
  String.substring 0 (String.length s - 1) s.

(** [needle in haystack] for two strings *)
Definition contains (needle haystack : string) : bool :=
  match String.index 0 needle haystack with
  | Some _ => true
  | None => false
  end.

(** [str(n)] for an integer *)
Definition str (n : Z) : string := pretty n.

End PyStr.

(** ** The client object *)

Record CouchClient : Type := Client {
  couch_base_uri : string;
  max_retries : Z;
  connection_timeout : Z;
  verbose : bool
}.

(** [CouchClient.__init__], with the class attributes as defaults. *)
Definition init (uri : string) : CouchClient :=
  let uri := if PyStr.endswith uri "/" then PyStr.drop_last uri else uri in
  {| couch_base_uri := uri;
     max_retries := 3;
     connection_timeout := 3000;
     verbose := false |}.

Definition set_verbose (self : CouchClient) (v : bool) : CouchClient :=
  {| couch_base_uri := couch_base_uri self;
     max_retries := max_retries self;
     connection_timeout := connection_timeout self;
     verbose := v |}.

Definition set_timeout (self : CouchClient) (timeout : Z) : CouchClient :=
  {| couch_base_uri := couch_base_uri self;
     max_retries := max_retries self;
     connection_timeout := timeout;
     verbose := verbose self |}.

Definition set_max_retries (self : CouchClient) (n : Z) : CouchClient :=
  {| couch_base_uri := couch_base_uri self;
     max_retries := n;
     connection_timeout := connection_timeout self;
     verbose := verbose self |}.

(** ** Subscripting and membership on JSON values *)

(** [j[key]] with a string key. *)
Definition getitem (j : json) (key : string) : result json :=
  match j with
  | JObj d =>
      match d !! key with
      | Some v => Ok v
      | None => Raise (KeyError key)
      end
  | _ => Raise TypeError
  end.

(** [key in j] with a string key: key membership for an object, element
    membership for an array, substring test for a string. *)
Definition contains (key : string) (j : json) : result bool :=
  match j with
  | JObj d => Ok (bool_decide (is_Some (d !! key)))
  | JArr l =>
      Ok (existsb (fun x => match x with
                            | JStr s => String.eqb s key
                            | _ => false
                            end) l)
  | JStr s => Ok (PyStr.contains key s)
  | _ => Raise TypeError
  end.

(** ["?rev=" + v] *)
Definition str_concat (prefix : string) (v : json) : result string :=
  match v with
  | JStr s => Ok (prefix ++ s)
  | _ => Raise TypeError
  end.

(** [{**document, **document_diff}] where [document] came off the wire. *)
Definition merge (document : json) (document_diff : dict) : result dict :=
  match document with
  | JObj d => Ok (document_diff ∪ d)
  | _ => Raise TypeError
  end.

(** An entry of a sort: a mapping from a field name to a direction, as in
    [[{"name": "asc"}]], or a plain field name, as in [["name"]]; these are
    the two forms a Mango sort has. *)
Inductive sort_entry : Type :=
| ByMapping (mapping : dict)
| ByName (name : string).

(** The entry as it travels in the query. *)
Definition entry_json (e : sort_entry) : json :=
  match e with
  | ByMapping mapping => JObj mapping
  | ByName name => JStr name
  end.

(** [for c in s] over a string: its characters, each a string of length
    one (a character is a byte here). *)
Fixpoint chars (s : string) : list string :=
  match s with
  | EmptyString => []
  | String c s' => String c EmptyString :: chars s'
  end.

(** The predicate the selector receives for a sort field it lacks. *)
Definition exists_predicate : json := JObj {[ "$exists" := JBool true ]}.

(** Heap addresses of the dictionaries that callers pass in. *)
Abbreviation loc := positive.

(** The default [selector = {}] of [find] and of [find_all]: each is one
    dictionary, created when the function is defined. *)
Definition find_default_selector : loc := 1%positive.
Definition find_all_default_selector : loc := 2%positive.

(** ** The machine the client runs on *)

Section Machine.

(** The transport capability: the session and the remote store behind it.
    [W] is their state; an attempt sends a request and yields a reply. *)
Context {W : Type}.
Variable transport : W -> request -> reply * W.

(** [heap] holds the caller's dictionaries, [net] is the transport's
    state, [wire] lists every attempt made so far (oldest first) and
    [stdout] the lines printed. *)
Record world : Type := World {
  heap : gmap loc dict;
  net : W;
  wire : list request;
  stdout : list string
}.

(** A computation threads the world and may raise. *)
Definition M (A : Type) : Type := world -> result A * world.

Definition ret {A} (a : A) : M A := fun w => (Ok a, w).

Definition raise {A} (e : exn) : M A := fun w => (Raise e, w).

Definition diverge {A} : M A := fun w => (Diverge, w).

Definition bind {A B} (m : M A) (k : A -> M B) : M B := fun w =>
  match m w with
  | (Ok a, w') => k a w'
  | (Raise e, w') => (Raise e, w')
  | (Diverge, w') => (Diverge, w')
  end.

(** A pure step that may raise. *)
Definition lift {A} (r : result A) : M A := fun w => (r, w).

(** [try: m  except CouchHTTPError as e: handler e]: only that exception
    is handled; state changes made by [m] before raising stay. *)
Definition try_except_http {A} (m : M A) (handler : json -> Z -> M A) : M A :=
  fun w =>
    match m w with
    | (Raise (CouchHTTPError message code), w') => handler message code w'
    | other => other
    end.

Notation "x <- c ;; k" := (bind c (fun x => k))
  (at level 100, c at next level, right associativity).
Notation "c ;;; k" := (bind c (fun _ => k))
  (at level 100, right associativity).

(** One attempt on the session. *)
Definition send (r : request) : M reply := fun w =>
  let '(a, n) := transport (net w) r in
  (Ok a, {| heap := heap w; net := n; wire := wire w ++ [r]; stdout := stdout w |}).

Definition print (line : string) : M unit := fun w =>
  (Ok tt, {| heap := heap w; net := net w; wire := wire w;
             stdout := stdout w ++ [line] |}).

(** Reading and writing a dictionary on the heap.  An address that was
    never written holds the empty dictionary. *)
Definition dict_read (l : loc) : M dict := fun w => (Ok (heap w !!! l), w).

Definition dict_contains (l : loc) (key : string) : M bool := fun w =>
  (Ok (bool_decide (is_Some ((heap w !!! l) !! key))), w).

Definition with_heap (h : gmap loc dict) (w : world) : world :=
  {| heap := h; net := net w; wire := wire w; stdout := stdout w |}.

Definition dict_setitem (l : loc) (key : string) (v : json) : M unit := fun w =>
  (Ok tt, with_heap (<[ l := <[ key := v ]> (heap w !!! l) ]> (heap w)) w).

(** [for x in l: body x] *)
Fixpoint for_each {A} (l : list A) (body : A -> M unit) : M unit :=
  match l with
  | [] => ret tt
  | x :: l' => body x ;;; for_each l' body
  end.

(** The keys of a dictionary, as iteration yields them (in an order of
    their own: the loops below end in the same dictionary whatever the
    order, see [foldl_add_missing_lookup]). *)
Definition keys (d : dict) : list string := (map_to_list d).*1.

(** [for key in sortby]: the keys of a mapping, the characters of a
    string. *)
Definition entry_keys (sortby : sort_entry) : list string :=
  match sortby with
  | ByMapping mapping => keys mapping
  | ByName name => chars name
  end.

(** [refused k n r] is the transport's state after [k] attempts at [r]
    from state [n] that all ended in a refused connection or a timeout,
    and [None] when one of them got a response. *)
Fixpoint refused (k : nat) (n : W) (r : request) : option W :=
  match k with
  | O => Some n
  | S k' =>
      let '(a, n') := transport n r in
      if is_transient a then refused k' n' r else None
  end.

(** *** The query executor *)

Section Client.

Variable self : CouchClient.

(** The request an attempt makes (lines 41-48): POST and PUT pass
    [json=args], DELETE and GET do not. *)
Definition request_of (endpoint : string) (method : HTTPMethod)
    (args : option json) : request :=
  match method with
  | POST => Request POST (couch_base_uri self ++ endpoint) args (connection_timeout self)
  | DELETE => Request DELETE (couch_base_uri self ++ endpoint) None (connection_timeout self)
  | PUT => Request PUT (couch_base_uri self ++ endpoint) args (connection_timeout self)
  | GET => Request GET (couch_base_uri self ++ endpoint) None (connection_timeout self)
  end.

(** The [while try_n < max_retries] loop of [__couch_query]. *)
Fixpoint couch_query_loop (endpoint : string) (method : HTTPMethod)
    (args : option json) (fuel : nat) (try_n : Z) : M json :=
  if (try_n <? max_retries self)%Z then
    match fuel with
    | O => diverge
    | S fuel' =>
        response <- send (request_of endpoint method args) ;;
        match response with
        | Response status_code body =>
            if (200 <=? status_code)%Z && (status_code <? 300)%Z
            then ret body
            else raise (CouchHTTPError body status_code)
        | ConnectionRefused =>
            (if verbose self
             then print ("Request (" ++ endpoint ++ ") was refused on try "
                         ++ PyStr.str try_n)
             else ret tt) ;;;
            couch_query_loop endpoint method args fuel' (try_n + 1)
        | TimedOut =>
            (if verbose self
             then print ("Request (" ++ endpoint ++ ") timed out on try "
                         ++ PyStr.str try_n)
             else ret tt) ;;;
            couch_query_loop endpoint method args fuel' (try_n + 1)
        | Failed name => raise (TransportError name)
        end
    end
  else
    raise (ConnectionError ("Gave up connecting to CouchDB after "
                            ++ PyStr.str try_n ++ " tries")).

(** [__couch_query]: the loop starts at [try_n = 0]; [max_retries]
    rounds of fuel are all it can use. *)
Definition couch_query (endpoint : string) (method : HTTPMethod)
    (args : option json) : M json :=
  couch_query_loop endpoint method args (Z.to_nat (max_retries self)) 0.

(** *** Document operations *)

Definition get_server_version : M json :=
  response <- couch_query "/" GET None ;;
  has_version <- lift (contains "version" response) ;;
  if has_version : bool then lift (getitem response "version") else ret JNull.

(** Lines 64-68 and 88-92: the sort fields missing from the selector
    are written into the selector dictionary itself. *)
Definition augment_selector (selector : loc) (sort : option (list sort_entry)) : M unit :=
  match sort with
  | Some sort =>
      for_each sort (fun sortby =>
        for_each (entry_keys sortby) (fun key =>
          present <- dict_contains selector key ;;
          if present : bool then ret tt
          else dict_setitem selector key exists_predicate))
  | None => ret tt
  end.

(** [mango["sort"] = sort] and [mango["fields"] = fields], when given. *)
Definition with_sort_fields (sort : option (list sort_entry)) (fields : option json)
    (mango : dict) : dict :=
  let mango := match sort with
               | Some sort => <[ "sort" := JArr (entry_json <$> sort) ]> mango
               | None => mango
               end in
  match fields with
  | Some fields => <[ "fields" := fields ]> mango
  | None => mango
  end.

(** Lines 70-80: the query of [find], given the selector's contents. *)
Definition find_mango (sel : dict) (fields : option json)
    (sort : option (list sort_entry)) (page page_size : Z) : dict :=
  let mango : dict :=
    {[ "selector" := JObj sel;
       "skip" := JNum (page * page_size);
       "limit" := JNum page_size ]} in
  with_sort_fields sort fields mango.

(** [selector = None] is a call that leaves the argument out, so that the
    default dictionary is used. *)
Definition find (database : string) (selector : option loc)
    (fields : option json) (sort : option (list sort_entry))
    (page page_size : Z) : M json :=
  let selector := default find_default_selector selector in
  augment_selector selector sort ;;;
  sel <- dict_read selector ;;
  let mango := find_mango sel fields sort page page_size in
  response <- couch_query ("/" ++ database ++ "/_find") POST (Some (JObj mango)) ;;
  lift (getitem response "docs").

(** Lines 94-103: the query of [find_all]. *)
Definition find_all_mango (sel : dict) (limit : json) (fields : option json)
    (sort : option (list sort_entry)) : dict :=
  let mango : dict :=
    {[ "selector" := JObj sel;
       "limit" := limit ]} in
  with_sort_fields sort fields mango.

Definition find_all (database : string) (selector : option loc)
    (fields : option json) (sort : option (list sort_entry)) : M json :=
  let selector := default find_all_default_selector selector in
  response <- couch_query ("/" ++ database ++ "/_all_docs") GET None ;;
  limit <- lift (getitem response "total_rows") ;;
  augment_selector selector sort ;;;
  sel <- dict_read selector ;;
  let mango := find_all_mango sel limit fields sort in
  response <- couch_query ("/" ++ database ++ "/_find") POST (Some (JObj mango)) ;;
  lift (getitem response "docs").

(** Lines 108-114: the options of [create_db]. *)
Definition create_db_options (shards replicas : option Z)
    (partitioned : bool) : dict :=
  let options : dict := {[ "partitioned" := JBool partitioned ]} in
  let options := match shards with
                 | Some q => <[ "q" := JNum q ]> options
                 | None => options
                 end in
  match replicas with
  | Some n => <[ "n" := JNum n ]> options
  | None => options
  end.

Definition create_db (database : string) (shards replicas : option Z)
    (partitioned : bool) : M json :=
  let options := create_db_options shards replicas partitioned in
  try_except_http
    (couch_query ("/" ++ database) PUT (Some (JObj options)) ;;;
     ret (JBool true))
    (fun message code =>
       if (code =? 412)%Z
       then raise (ObjectAlreadyExistsException "Database already exists" database)
       else raise (CouchHTTPError message code)).

Definition delete_db (database : string) : M json :=
  couch_query ("/" ++ database) DELETE None.

Definition get_document (database doc_id : string) : M json :=
  couch_query ("/" ++ database ++ "/" ++ doc_id) GET None.

Definition delete_document (database doc_id : string) (strict : bool) : M json :=
  try_except_http
    (document <- couch_query ("/" ++ database ++ "/" ++ doc_id) GET None ;;
     rev <- lift (getitem document "_rev") ;;
     rev_str <- lift (str_concat "?rev=" rev) ;;
     couch_query ("/" ++ database ++ "/" ++ doc_id ++ rev_str) DELETE None)
    (fun message code =>
       if strict || negb (code =? 404)%Z
       then raise (CouchHTTPError message code)
       else ret (JBool false)).

Definition put_document (database doc_id : string) (document : loc)
    (overwrite strict : bool) : M json :=
  (if overwrite && negb strict then
     try_except_http
       (in_document <- couch_query ("/" ++ database ++ "/" ++ doc_id) GET None ;;
        rev <- lift (getitem in_document "_rev") ;;
        dict_setitem document "_rev" rev)
       (fun message code =>
          if negb (code =? 404)%Z
          then raise (CouchHTTPError message code)
          else ret tt)
   else ret tt) ;;;
  payload <- dict_read document ;;
  couch_query ("/" ++ database ++ "/" ++ doc_id) PUT (Some (JObj payload)).

Definition patch_document (database doc_id : string) (document_diff : dict)
    (strict : bool) : M json :=
  document <-
    try_except_http
      (couch_query ("/" ++ database ++ "/" ++ doc_id) GET None)
      (fun message code =>
         if strict || negb (code =? 404)%Z
         then raise (CouchHTTPError message code)
         else ret (JObj ∅)) ;;
  merged_document <- lift (merge document document_diff) ;;
  couch_query ("/" ++ database ++ "/" ++ doc_id) PUT (Some (JObj merged_document)).

(** The public operations that go through the query executor, as
    calls with their arguments. *)
Inductive operation : Type :=
| GetServerVersion
| Find (database : string) (selector : option loc) (fields : option json)
    (sort : option (list sort_entry)) (page page_size : Z)
| FindAll (database : string) (selector : option loc) (fields : option json)
    (sort : option (list sort_entry))
| CreateDb (database : string) (shards replicas : option Z) (partitioned : bool)
| DeleteDb (database : string)
| GetDocument (database doc_id : string)
| DeleteDocument (database doc_id : string) (strict : bool)
| PutDocument (database doc_id : string) (document : loc) (overwrite strict : bool)
| PatchDocument (database doc_id : string) (document_diff : dict) (strict : bool).

Definition call (o : operation) : M json :=
  match o with
  | GetServerVersion => get_server_version
  | Find database selector fields sort page page_size =>
      find database selector fields sort page page_size
  | FindAll database selector fields sort =>
      find_all database selector fields sort
  | CreateDb database shards replicas partitioned =>
      create_db database shards replicas partitioned
  | DeleteDb database => delete_db database
  | GetDocument database doc_id => get_document database doc_id
  | DeleteDocument database doc_id strict =>
      delete_document database doc_id strict
  | PutDocument database doc_id document overwrite strict =>
      put_document database doc_id document overwrite strict
  | PatchDocument database doc_id document_diff strict =>
      patch_document database doc_id document_diff strict
  end.

End Client.

End Machine.

(** ** What the selector loops compute *)

(** One round of lines 67-68 on a dictionary value. *)
Definition add_missing (selector : dict) (key : string) : dict :=
  match selector !! key with
  | Some _ => selector
  | None => <[ key := exists_predicate ]> selector
  end.

(** The selector dictionary after the loops of lines 64-68. *)
Definition augmented (sort : option (list sort_entry)) (selector : dict) : dict :=
  match sort with
  | Some sort =>
      foldl (fun sel sortby => foldl add_missing sel (entry_keys sortby)) selector sort
  | None => selector
  end.


(** [key] is yielded by the loop of line 66 on one of the entries of
    [sort]: a key of a mapping entry, or a character of a name entry. *)
Definition sort_key (sort : option (list sort_entry)) (key : string) : Prop :=
  exists s sortby, sort = Some s /\ sortby ∈ s /\ key ∈ entry_keys sortby.

(** ** Requests on the wire *)

(** The URL of [r] is the client's base address followed by a path that
    begins with the separator. *)
Definition targets_base (self : CouchClient) (r : request) : Prop :=
  exists path : string, req_url r = couch_base_uri self ++ "/" ++ path.

(** From [w] to [w'] the wire only grew, by attempts that satisfy [P]. *)
Definition extends_wire {W} (P : request -> Prop) (w w' : @world W) : Prop :=
  exists attempts : list request,
    wire w' = (wire w ++ attempts)%list /\ Forall P attempts.

(** Every run of [m] extends the wire by attempts that satisfy [P]. *)
Definition wire_sound {W A} (P : request -> Prop) (m : @M W A) : Prop :=
  forall (w w' : world) (res : result A), m w = (res, w') -> extends_wire P w w'.

(** No run of [m] is cut short by the fuel of the retry loop. *)
Definition terminates {W A} (m : @M W A) : Prop :=
  forall w : world, (m w).1 <> Diverge.

(** Every run of [m] takes the world to one that [R] relates to it. *)
Definition keeps {W A} (R : @world W -> @world W -> Prop) (m : @M W A) : Prop :=
  forall (w w' : world) (res : result A), m w = (res, w') -> R w w'.

(** Every run of [m] puts at most [n] attempts on the wire. *)
Definition adds_at_most {W A} (n : nat) (m : @M W A) : Prop :=
  forall (w w' : world) (res : result A),
    m w = (res, w') ->
    exists attempts : list request,
      wire w' = (wire w ++ attempts)%list /\ (length attempts <= n)%nat.

(** From [w] to [w'] the dictionaries on the heap are the same, except for
    the entries that [may] names. *)
Definition heap_same_outside {W} (may : loc -> string -> Prop)
    (w w' : @world W) : Prop :=
  forall (l : loc) (key : string),
    ~ may l key -> (heap w' !!! l) !! key = (heap w !!! l) !! key.

(** The dictionary an operation is handed and writes to, if any. *)
Definition written (o : operation) : option loc :=
  match o with
  | Find _ selector _ _ _ _ => Some (default find_default_selector selector)
  | FindAll _ selector _ _ => Some (default find_all_default_selector selector)
  | PutDocument _ _ document _ _ => Some document
  | _ => None
  end.

(** [may] covers the heap entries that the code of [o] assigns to: any key
    of the selector for [find] and [find_all] (lines 68 and 92), the key
    [_rev] of the document for [put_document] (line 146). *)
Definition writes_within (may : loc -> string -> Prop) (o : operation) : Prop :=
  match o with
  | Find _ selector _ _ _ _ =>
      forall key : string, may (default find_default_selector selector) key
  | FindAll _ selector _ _ =>
      forall key : string, may (default find_all_default_selector selector) key
  | PutDocument _ _ document _ _ => may document "_rev"
  | _ => True
  end.

(** ** Mock transports *)

Module Mock.

(** Every attempt is refused. *)
Definition refusing (n : unit) (r : request) : reply * unit :=
  (ConnectionRefused, n).

(** The replies are read off a script; once it is used up every attempt
    times out. *)
Definition scripted (script : list reply) (r : request) : reply * list reply :=
  match script with
  | [] => (TimedOut, [])
  | a :: rest => (a, rest)
  end.

(** A world in which nothing has been printed. *)
Definition at_wire {W} (h : gmap loc dict) (n : W) (sent : list request) : world :=
  {| heap := h; net := n; wire := sent; stdout := [] |}.

(** A world with an empty wire as well. *)
Definition start {W} (h : gmap loc dict) (n : W) : world := at_wire h n [].

Definition client : CouchClient := init "http://localhost:5984/".

(** Bodies the store answers with. *)
Definition stored : json :=
  JObj {[ "_rev" := JStr "1-abc"; "a" := JNum 1; "b" := JNum 2 ]}.
Definition created : json :=
  JObj {[ "ok" := JBool true; "id" := JStr "x"; "rev" := JStr "2-def" ]}.
Definition not_found : json :=
  JObj {[ "error" := JStr "not_found"; "reason" := JStr "missing" ]}.
Definition forbidden : json := JObj {[ "error" := JStr "forbidden" ]}.
Definition file_exists : json := JObj {[ "error" := JStr "file_exists" ]}.
Definition found : json := JObj {[ "docs" := JArr [stored] ]}.
Definition counted : json := JObj {[ "total_rows" := JNum 1 ]}.

(** [sort=[{"name": "asc"}]] *)
Definition by_name : list sort_entry := [ ByMapping {[ "name" := JStr "asc" ]} ].


(** The caller's document [{"a": 2}], at address 7. *)
Definition document : loc := 7%positive.
Definition caller_heap : gmap loc dict := {[ document := {[ "a" := JNum 2 ]} ]}.

Definition get_x : request := Request GET "http://localhost:5984/db/x" None 3000.

Definition put_x (payload : dict) : request :=
  Request PUT "http://localhost:5984/db/x" (Some (JObj payload)) 3000.

Definition put_db (options : dict) : request :=
  Request PUT "http://localhost:5984/db" (Some (JObj options)) 3000.

Definition post_find (mango : dict) : request :=
  Request POST "http://localhost:5984/db/_find" (Some (JObj mango)) 3000.

Definition get_all_docs : request :=
  Request GET "http://localhost:5984/db/_all_docs" None 3000.

(** The document of [stored] as a dictionary, and the diff
    [{"b": 3, "c": 4}]. *)
Definition stored_fields : dict :=
  {[ "_rev" := JStr "1-abc"; "a" := JNum 1; "b" := JNum 2 ]}.
Definition diff : dict := {[ "b" := JNum 3; "c" := JNum 4 ]}.

(** The caller's selector [{}], at address 9, and what [find] makes of it
    under [by_name]. *)
Definition selector : loc := 9%positive.
Definition selector_heap : gmap loc dict := {[ selector := ∅ ]}.
Definition name_exists : dict := {[ "name" := exists_predicate ]}.

(** The query [find] sends for page 2 of size 20 sorted by name. *)
Definition mango_by_name : dict :=
  {[ "selector" := JObj name_exists;
     "skip" := JNum 40;
     "limit" := JNum 20;
     "sort" := JArr [JObj {[ "name" := JStr "asc" ]}] ]}.

End Mock.

(** * Properties *)

Local Open Scope list_scope.

(** ** The retry loop *)

Section Executor.

Context {W : Type}.
Variable transport : W -> request -> reply * W.
Variable self : CouchClient.
Variables (endpoint : string) (method : HTTPMethod) (args : option json).

Let r := request_of self endpoint method args.

Lemma guard_true (try_n : Z) :
  try_n < max_retries self -> (try_n <? max_retries self)%Z = true.
Proof. intros H. by apply Z.ltb_lt. Qed.

Lemma guard_false (try_n : Z) :
  max_retries self <= try_n -> (try_n <? max_retries self)%Z = false.
Proof. intros H. by apply Z.ltb_ge. Qed.

(** [k] transient failures use up [k] rounds and leave the loop at
    [try_n + k], with [k] more attempts on the wire. *)
Lemma couch_query_loop_refused (k : nat) :
  forall (fuel : nat) (try_n : Z) (w : world) (nk : W),
    refused transport k (net w) r = Some nk ->
    try_n + Z.of_nat k <= max_retries self ->
    exists w' : world,
      couch_query_loop transport self endpoint method args (k + fuel) try_n w =
      couch_query_loop transport self endpoint method args fuel (try_n + Z.of_nat k) w'
      /\ heap w' = heap w /\ net w' = nk
      /\ wire w' = wire w ++ replicate k r.
Proof.
  induction k as [|k IH]; intros fuel try_n w nk Hk Hle.
  - exists w. simpl in Hk. injection Hk as <-.
    rewrite Z.add_0_r, app_nil_r. auto.
  - simpl in Hk.
    destruct (transport (net w) r) as [a n'] eqn:Ht.
    destruct (is_transient a) eqn:Ha; [|discriminate].
    change (S k + fuel)%nat with (S (k + fuel)).
    cbn [couch_query_loop]. rewrite guard_true by lia.
    unfold bind at 1. unfold send. fold r. rewrite Ht.
    assert (Hnext : forall out : list string,
      exists w' : world,
        couch_query_loop transport self endpoint method args (k + fuel) (try_n + 1)
          {| heap := heap w; net := n'; wire := wire w ++ [r]; stdout := out |} =
        couch_query_loop transport self endpoint method args fuel
          (try_n + Z.of_nat (S k)) w'
        /\ heap w' = heap w /\ net w' = nk
        /\ wire w' = wire w ++ replicate (S k) r).
    { intros out.
      destruct (IH fuel (try_n + 1)
                  {| heap := heap w; net := n'; wire := wire w ++ [r]; stdout := out |}
                  nk) as (w' & Heq & Hh & Hn & Hw); [exact Hk | lia |].
      exists w'. rewrite Heq. simpl in Hh, Hn, Hw.
      replace (try_n + 1 + Z.of_nat k) with (try_n + Z.of_nat (S k)) by lia.
      rewrite Hw, <- app_assoc. auto. }
    destruct a as [status body| | |name]; [discriminate| | |discriminate];
      unfold bind; destruct (verbose self); simpl; apply Hnext.
Qed.

(** The three ways the loop ends, after [k] transient failures. *)

Lemma couch_query_exhausted (w : world) (nk : W) :
  refused transport (Z.to_nat (max_retries self)) (net w) r = Some nk ->
  exists w' : world,
    couch_query transport self endpoint method args w =
      (Raise (ConnectionError
                ("Gave up connecting to CouchDB after "
                 ++ PyStr.str (Z.of_nat (Z.to_nat (max_retries self)))
                 ++ " tries")%string), w')
    /\ heap w' = heap w /\ net w' = nk
    /\ wire w' = wire w ++ replicate (Z.to_nat (max_retries self)) r.
Proof.
  intros Hk. unfold couch_query.
  destruct (Z.le_gt_cases 0 (max_retries self)) as [Hpos|Hneg].
  - destruct (couch_query_loop_refused _ 0%nat 0 w nk Hk) as (w' & Heq & Hh & Hn & Hw);
      [lia|].
    exists w'. rewrite Nat.add_0_r in Heq. rewrite Heq.
    cbn [couch_query_loop]. rewrite guard_false by lia. auto.
  - replace (Z.to_nat (max_retries self)) with 0%nat in * by lia.
    simpl in Hk. injection Hk as <-.
    exists w. cbn [couch_query_loop]. rewrite guard_false by lia.
    rewrite app_nil_r. auto.
Qed.

Lemma couch_query_answered (k : nat) (w : world) (nk n' : W)
    (status_code : Z) (body : json) :
  refused transport k (net w) r = Some nk ->
  Z.of_nat k < max_retries self ->
  transport nk r = (Response status_code body, n') ->
  exists w' : world,
    couch_query transport self endpoint method args w =
      (if (200 <=? status_code)%Z && (status_code <? 300)%Z
       then Ok body
       else Raise (CouchHTTPError body status_code), w')
    /\ heap w' = heap w /\ net w' = n'
    /\ wire w' = wire w ++ replicate (S k) r.
Proof.
  intros Hk Hlt Ht. unfold couch_query.
  replace (Z.to_nat (max_retries self))
    with (k + S (Z.to_nat (max_retries self) - S k))%nat by lia.
  destruct (couch_query_loop_refused k (S (Z.to_nat (max_retries self) - S k)) 0 w nk Hk)
    as (w1 & Heq & Hh & Hn & Hw); [lia|].
  rewrite Heq. cbn [couch_query_loop]. rewrite guard_true by lia.
  unfold bind, send. fold r. rewrite Hn, Ht.
  eexists. split.
  - destruct ((200 <=? status_code)%Z && (status_code <? 300)%Z); reflexivity.
  - simpl. rewrite Hh, Hw. repeat split; [].
    rewrite <- app_assoc. f_equal.
    symmetry. apply replicate_cons_app.
Qed.

(** Whatever happens, a query leaves the heap alone, puts only copies of
    its own request on the wire, and does not run out of fuel. *)
Lemma couch_query_loop_frame (fuel : nat) :
  forall (try_n : Z) (w w' : world) (res : result json),
    couch_query_loop transport self endpoint method args fuel try_n w = (res, w') ->
    heap w' = heap w
    /\ (exists k : nat, wire w' = wire w ++ replicate k r)
    /\ ((Z.to_nat (max_retries self - try_n) <= fuel)%nat -> res <> Diverge).
Proof.
  induction fuel as [|fuel IH]; intros try_n w w' res; cbn [couch_query_loop];
    destruct (try_n <? max_retries self)%Z eqn:Hg.
  - intros [= <- <-]. apply Z.ltb_lt in Hg.
    split; [done|]. split; [exists 0%nat; by rewrite app_nil_r | lia].
  - intros [= <- <-]. split; [done|].
    split; [exists 0%nat; by rewrite app_nil_r | done].
  - apply Z.ltb_lt in Hg. unfold bind at 1. unfold send. fold r.
    destruct (transport (net w) r) as [a n'].
    assert (Hnext : forall out : list string,
      couch_query_loop transport self endpoint method args fuel (try_n + 1)
        {| heap := heap w; net := n'; wire := wire w ++ [r]; stdout := out |}
        = (res, w') ->
      heap w' = heap w
      /\ (exists k : nat, wire w' = wire w ++ replicate k r)
      /\ ((Z.to_nat (max_retries self - try_n) <= S fuel)%nat -> res <> Diverge)).
    { intros out Hrun. apply IH in Hrun as (Hh & (k & Hw) & Hd). simpl in Hh, Hw.
      split; [done|]. split.
      - exists (S k). by rewrite Hw, <- app_assoc.
      - intros Hf. apply Hd. lia. }
    destruct a as [status_code body| | |name].
    + destruct ((200 <=? status_code)%Z && (status_code <? 300)%Z);
        intros [= <- <-]; (split; [done|]);
        (split; [by exists 1%nat | done]).
    + unfold bind. destruct (verbose self); simpl; apply Hnext.
    + unfold bind. destruct (verbose self); simpl; apply Hnext.
    + intros [= <- <-]. split; [done|]. split; [by exists 1%nat | done].
  - intros [= <- <-]. split; [done|].
    split; [exists 0%nat; by rewrite app_nil_r | done].
Qed.

Lemma couch_query_frame (w w' : world) (res : result json) :
  couch_query transport self endpoint method args w = (res, w') ->
  heap w' = heap w
  /\ (exists k : nat, wire w' = wire w ++ replicate k r)
  /\ res <> Diverge.
Proof.
  intros Hrun. apply couch_query_loop_frame in Hrun as (Hh & Hw & Hd).
  split; [done|]. split; [done|]. apply Hd. lia.
Qed.

End Executor.

(** ** The selector loops *)

Section Selector.


Lemma add_missing_lookup (sel : dict) (a key : string) :
  add_missing sel a !! key =
  match sel !! key with
  | Some v => Some v
  | None => if decide (a = key) then Some exists_predicate else None
  end.
Proof.
  unfold add_missing. destruct (sel !! a) as [va|] eqn:Ha.
  - destruct (sel !! key) eqn:Hkey; [done|]. case_decide; [congruence | done].
  - rewrite lookup_insert. case_decide.
    + subst. by rewrite Ha.
    + by destruct (sel !! key).
Qed.

Lemma foldl_add_missing_lookup (ks : list string) :
  forall (sel : dict) (key : string),
    foldl add_missing sel ks !! key =
    match sel !! key with
    | Some v => Some v
    | None => if decide (key ∈ ks) then Some exists_predicate else None
    end.
Proof.
  induction ks as [|a ks IH]; intros sel key; cbn [foldl].
  - destruct (sel !! key); [done|].
    by rewrite decide_False by apply not_elem_of_nil.
  - rewrite IH, add_missing_lookup.
    destruct (sel !! key); [done|].
    destruct (decide (a = key)) as [->|Hne].
    + by rewrite decide_True by (apply elem_of_cons; auto).
    + destruct (decide (key ∈ ks)).
      * by rewrite decide_True by (apply elem_of_cons; auto).
      * by rewrite decide_False by (rewrite elem_of_cons; intros [?|?]; done).
Qed.

Lemma augmented_kept (sort : option (list sort_entry)) (sel : dict) (key : string) (v : json) :
  sel !! key = Some v -> augmented sort sel !! key = Some v.
Proof.
  destruct sort as [s|]; [|done]. simpl. revert sel.
  induction s as [|sortby s IH]; intros sel Hv; [done|]. simpl.
  apply IH. by rewrite foldl_add_missing_lookup, Hv.
Qed.


Lemma augmented_added (sort : option (list sort_entry)) (sel : dict) (key : string) :
  sort_key sort key -> sel !! key = None ->
  augmented sort sel !! key = Some exists_predicate.
Proof.
  intros (s & sortby & -> & Hin & Hkey). simpl. revert sel.
  induction s as [|a s IH]; intros sel Hnone; [by apply elem_of_nil in Hin|].
  simpl. destruct (decide (key ∈ entry_keys a)) as [Ha|Ha].
  - apply (augmented_kept (Some s)).
    rewrite foldl_add_missing_lookup, Hnone. by case_decide.
  - apply IH.
    + apply elem_of_cons in Hin as [->|Hin]; done.
    + rewrite foldl_add_missing_lookup, Hnone. by case_decide.
Qed.

Lemma augmented_absent (sort : option (list sort_entry)) (sel : dict) (key : string) :
  ~ sort_key sort key -> sel !! key = None ->
  augmented sort sel !! key = None.
Proof.
  destruct sort as [s|]; [|done]. simpl. revert sel.
  induction s as [|a s IH]; intros sel Hno Hnone; [done|]. simpl.
  apply IH.
  - intros (s' & sortby & [= <-] & Hin & Hkey). apply Hno.
    exists (a :: s), sortby. split; [done|]. split; [|done]. by apply elem_of_cons; right.
  - rewrite foldl_add_missing_lookup, Hnone. case_decide as Ha; [|done].
    exfalso. apply Hno. exists (a :: s), a. split; [done|].
    split; [by apply elem_of_cons; left | done].
Qed.

Context {W : Type}.

Lemma with_heap_id (w : @world W) : with_heap (heap w) w = w.
Proof. by destruct w. Qed.

(** Lines 67-68 on the heap: one key. *)
Lemma augment_key_run (selector : loc) (key : string) (w : @world W) :
  exists h' : gmap loc dict,
    bind (dict_contains selector key) (fun present : bool =>
      if present then ret tt
      else dict_setitem selector key exists_predicate) w
    = (Ok tt, with_heap h' w)
    /\ h' !!! selector = add_missing (heap w !!! selector) key
    /\ (forall l : loc, l <> selector -> h' !! l = heap w !! l).
Proof.
  unfold bind, dict_contains, add_missing.
  destruct ((heap w !!! selector) !! key) as [v|] eqn:Hkey.
  - rewrite bool_decide_eq_true_2 by eauto.
    exists (heap w). unfold ret. by rewrite with_heap_id.
  - rewrite bool_decide_eq_false_2 by (intros [? ?]; congruence).
    unfold dict_setitem. eexists. split; [done|]. split.
    + by rewrite lookup_total_insert_eq.
    + intros l Hl. by rewrite lookup_insert_ne.
Qed.

(** The inner loop (lines 66-68) on the heap. *)
Lemma for_each_key_run (selector : loc) (ks : list string) :
  forall w : @world W,
    exists h' : gmap loc dict,
      for_each ks (fun key =>
        bind (dict_contains selector key) (fun present : bool =>
          if present then ret tt
          else dict_setitem selector key exists_predicate)) w
      = (Ok tt, with_heap h' w)
      /\ h' !!! selector = foldl add_missing (heap w !!! selector) ks
      /\ (forall l : loc, l <> selector -> h' !! l = heap w !! l).
Proof.
  induction ks as [|key ks IH]; intros w.
  - exists (heap w). simpl. unfold ret. by rewrite with_heap_id.
  - cbn [for_each foldl]. unfold bind at 1.
    destruct (augment_key_run selector key w) as (h1 & Hrun1 & Hsel1 & Hoth1).
    rewrite Hrun1.
    destruct (IH (with_heap h1 w)) as (h' & Hrun & Hsel & Hother).
    exists h'. rewrite Hrun. split; [done|]. split.
    + rewrite Hsel. cbn [heap with_heap]. by rewrite Hsel1.
    + intros l Hl. rewrite Hother by done. cbn [heap with_heap]. by apply Hoth1.
Qed.

(** Lines 64-68: one heap update, at the selector's address. *)
Lemma augment_selector_run (selector : loc) (sort : option (list sort_entry)) (w : @world W) :
  exists h' : gmap loc dict,
    augment_selector selector sort w = (Ok tt, with_heap h' w)
    /\ h' !!! selector = augmented sort (heap w !!! selector)
    /\ (forall l : loc, l <> selector -> h' !! l = heap w !! l).
Proof.
  destruct sort as [s|]; simpl.
  - revert w. induction s as [|sortby s IH]; intros w.
    + exists (heap w). simpl. unfold ret. by rewrite with_heap_id.
    + cbn [for_each foldl]. unfold bind at 1.
      destruct (for_each_key_run selector (entry_keys sortby) w)
        as (h1 & Hrun1 & Hsel1 & Hoth1).
      rewrite Hrun1.
      destruct (IH (with_heap h1 w)) as (h' & Hrun & Hsel & Hother).
      exists h'. rewrite Hrun. split; [done|]. split.
      * rewrite Hsel. cbn [heap with_heap]. by rewrite Hsel1.
      * intros l Hl. rewrite Hother by done. cbn [heap with_heap]. by apply Hoth1.
  - exists (heap w). unfold ret. by rewrite with_heap_id.
Qed.

End Selector.

(** ** The document operations, one query at a time *)

Section Operations.

Context {W : Type}.
Variable transport : W -> request -> reply * W.
Variable self : CouchClient.

#[local] Arguments couch_query : simpl never.

(** [find] is its selector update followed by one query. *)
Lemma find_run (database : string) (selector : option loc) (fields : option json)
    (sort : option (list sort_entry)) (page page_size : Z) (w : world) :
  let sel := default find_default_selector selector in
  let sent := augmented sort (heap w !!! sel) in
  exists h' : gmap loc dict,
    h' !!! sel = sent
    /\ (forall l : loc, l <> sel -> h' !! l = heap w !! l)
    /\ find transport self database selector fields sort page page_size w =
       bind (couch_query transport self ("/" ++ database ++ "/_find") POST
               (Some (JObj (find_mango sent fields sort page page_size))))
            (fun response => lift (getitem response "docs"))
            (with_heap h' w).
Proof.
  intros sel sent.
  destruct (augment_selector_run sel sort w) as (h' & Hrun & Hsel & Hother).
  exists h'. split; [done|]. split; [done|].
  unfold find. fold sel. unfold bind at 1. rewrite Hrun.
  unfold bind at 1. unfold dict_read. cbn [heap with_heap].
  by rewrite Hsel.
Qed.

(** [find_all], once its count query has answered. *)
Lemma find_all_run (database : string) (selector : option loc) (fields : option json)
    (sort : option (list sort_entry)) (w w1 : world) (response limit : json) :
  let sel := default find_all_default_selector selector in
  let sent := augmented sort (heap w !!! sel) in
  couch_query transport self ("/" ++ database ++ "/_all_docs") GET None w
    = (Ok response, w1) ->
  getitem response "total_rows" = Ok limit ->
  exists h' : gmap loc dict,
    h' !!! sel = sent
    /\ (forall l : loc, l <> sel -> h' !! l = heap w !! l)
    /\ find_all transport self database selector fields sort w =
       bind (couch_query transport self ("/" ++ database ++ "/_find") POST
               (Some (JObj (find_all_mango sent limit fields sort))))
            (fun response => lift (getitem response "docs"))
            (with_heap h' w1).
Proof.
  intros sel sent Hcount Hlimit.
  pose proof Hcount as Hframe. apply couch_query_frame in Hframe as (Hh & _ & _).
  destruct (augment_selector_run sel sort w1) as (h' & Hrun & Hsel & Hother).
  rewrite Hh in Hsel, Hother.
  exists h'. split; [done|]. split; [done|].
  unfold find_all. fold sel. unfold bind at 1. rewrite Hcount.
  unfold bind at 1. unfold lift at 1. rewrite Hlimit.
  unfold bind at 1. rewrite Hrun.
  unfold bind at 1. unfold dict_read. cbn [heap with_heap].
  by rewrite Hsel.
Qed.

(** A query that is followed by a subscript leaves the heap and the wire
    as the query left them. *)
Lemma query_then_getitem_frame (endpoint : string) (method : HTTPMethod)
    (args : option json) (key : string) (w w' : world) (res : result json) :
  bind (couch_query transport self endpoint method args)
       (fun response => lift (getitem response key)) w = (res, w') ->
  heap w' = heap w
  /\ exists k : nat,
       wire w' = wire w ++ replicate k (request_of self endpoint method args).
Proof.
  unfold bind, lift.
  destruct (couch_query transport self endpoint method args w) as [q w1] eqn:Hq.
  apply couch_query_frame in Hq as (Hh & Hw & _).
  destruct q; intros [= <- <-]; auto.
Qed.

(** [put_document] with the revision lookup, when the lookup finds a
    revision: the caller's dictionary is stamped, then sent. *)
Lemma put_document_fetched (database doc_id : string) (document : loc)
    (w w1 : world) (in_document rev : json) :
  let stamped := <[ "_rev" := rev ]> (heap w !!! document) in
  couch_query transport self ("/" ++ database ++ "/" ++ doc_id) GET None w
    = (Ok in_document, w1) ->
  getitem in_document "_rev" = Ok rev ->
  put_document transport self database doc_id document true false w =
  couch_query transport self ("/" ++ database ++ "/" ++ doc_id) PUT
    (Some (JObj stamped))
    (with_heap (<[ document := stamped ]> (heap w)) w1).
Proof.
  intros stamped Hfetch Hrev.
  pose proof Hfetch as Hframe. apply couch_query_frame in Hframe as (Hh & _ & _).
  unfold put_document. cbn [andb negb].
  unfold bind at 1. unfold try_except_http. unfold bind at 1. rewrite Hfetch.
  unfold bind at 1. unfold lift. rewrite Hrev.
  unfold dict_setitem. unfold bind at 1. unfold dict_read.
  cbn [heap with_heap]. rewrite Hh, lookup_total_insert_eq. done.
Qed.

(** What [find] leaves behind, whatever its query did: the selector's
    dictionary updated in the heap, and copies of its one request on the
    wire. *)
Lemma find_frame (database : string) (selector : option loc) (fields : option json)
    (sort : option (list sort_entry)) (page page_size : Z) (w : world) :
  let sel := default find_default_selector selector in
  let sent := augmented sort (heap w !!! sel) in
  let after := (find transport self database selector fields sort page page_size w).2 in
  heap after !!! sel = sent
  /\ (forall l : loc, l <> sel -> heap after !! l = heap w !! l)
  /\ exists k : nat,
       wire after = wire w ++ replicate k
         (Request POST (couch_base_uri self ++ "/" ++ database ++ "/_find")
            (Some (JObj (find_mango sent fields sort page page_size)))
            (connection_timeout self)).
Proof.
  intros sel sent after. unfold after.
  destruct (find_run database selector fields sort page page_size w)
    as (h' & Hsel & Hother & ->).
  fold sel sent.
  match goal with
  | |- context [bind ?m ?f ?w0] => destruct (bind m f w0) as [res w'] eqn:Hrun
  end.
  apply query_then_getitem_frame in Hrun as (Hh & Hw).
  cbn [snd]. rewrite Hh. cbn [heap with_heap]. auto.
Qed.


(** A sort field is a key of the selector once the loops have run. *)
Lemma augmented_has_sort_key (sort : option (list sort_entry)) (sel : dict)
    (key : string) :
  sort_key sort key -> is_Some (augmented sort sel !! key).
Proof.
  intros Hfield. destruct (sel !! key) as [v|] eqn:Hkey.
  - exists v. by apply augmented_kept.
  - exists exists_predicate. by apply augmented_added.
Qed.



Lemma find_all_mango_lookup (sent : dict) (limit : json) (fields : option json)
    (sort : option (list sort_entry)) :
  let mango := find_all_mango sent limit fields sort in
  mango !! "selector" = Some (JObj sent) /\ mango !! "limit" = Some limit.
Proof.
  unfold find_all_mango, with_sort_fields.
  destruct sort, fields; by simplify_map_eq.
Qed.

End Operations.

(** ** The executor's error handling *)

Section ExecutorClaims.

Context {W : Type}.
Variable transport : W -> request -> reply * W.
Variable self : CouchClient.

#[local] Arguments couch_query : simpl never.

(** With every attempt refused, a query made from a world with the
    transport and the wire of [w] gives up. *)
Lemma first_query_exhausted (w : world) :
  (forall r : request,
     is_Some (refused transport (Z.to_nat (max_retries self)) (net w) r)) ->
  forall (endpoint : string) (method : HTTPMethod) (args : option json) (w0 : world),
    net w0 = net w -> wire w0 = wire w ->
    exists w' : world,
      couch_query transport self endpoint method args w0 =
        (Raise (ConnectionError
                  ("Gave up connecting to CouchDB after "
                   ++ PyStr.str (Z.of_nat (Z.to_nat (max_retries self)))
                   ++ " tries")%string), w')
      /\ wire w' = wire w ++ replicate (Z.to_nat (max_retries self))
                               (request_of self endpoint method args).
Proof.
  intros Hall endpoint method args w0 Hnet Hwire.
  destruct (Hall (request_of self endpoint method args)) as [nk Hnk].
  rewrite <- Hnet in Hnk.
  destruct (couch_query_exhausted transport self endpoint method args w0 nk Hnk)
    as (w' & Heq & _ & _ & Hw).
  exists w'. by rewrite Heq, Hw, Hwire.
Qed.

(** C1: for every operation, when the transport answers every attempt
    with a refused connection or a timeout, the attempts put on the wire
    number [max_retries] (none when the limit is not positive) and the
    call raises the connection error whose message gives that count. *)
Theorem retries_exhausted (o : operation) (w : world) :
  (forall r : request,
     is_Some (refused transport (Z.to_nat (max_retries self)) (net w) r)) ->
  exists (attempts : list request) (w' : world),
    call transport self o w =
      (Raise (ConnectionError
                ("Gave up connecting to CouchDB after "
                 ++ PyStr.str (Z.of_nat (length attempts))
                 ++ " tries")%string), w')
    /\ wire w' = wire w ++ attempts
    /\ length attempts = Z.to_nat (max_retries self).
Proof.
  intros Hall.
  pose proof (first_query_exhausted w Hall) as Hq.
  assert (Hdone : forall (endpoint : string) (method : HTTPMethod)
                    (args : option json) (w' : world) (m : M json),
    m w = (Raise (ConnectionError
                    ("Gave up connecting to CouchDB after "
                     ++ PyStr.str (Z.of_nat (Z.to_nat (max_retries self)))
                     ++ " tries")%string), w') ->
    wire w' = wire w ++ replicate (Z.to_nat (max_retries self))
                             (request_of self endpoint method args) ->
    exists (attempts : list request) (w' : world),
      m w =
        (Raise (ConnectionError
                  ("Gave up connecting to CouchDB after "
                   ++ PyStr.str (Z.of_nat (length attempts))
                   ++ " tries")%string), w')
      /\ wire w' = wire w ++ attempts
      /\ length attempts = Z.to_nat (max_retries self)).
  { intros endpoint method args w' m Hm Hw.
    exists (replicate (Z.to_nat (max_retries self))
              (request_of self endpoint method args)), w'.
    rewrite length_replicate. auto. }
  destruct o; cbn [call].
  - destruct (Hq "/" GET None w eq_refl eq_refl) as (w' & Heq & Hw).
    eapply Hdone; [|exact Hw].
    unfold get_server_version, bind. by rewrite Heq.
  - destruct (find_run transport self database selector fields sort page page_size w)
      as (h' & _ & _ & Hrun).
    edestruct (Hq ("/" ++ database ++ "/_find")%string POST) as (w' & Heq & Hw);
      [| |eapply Hdone; [|exact Hw]; rewrite Hrun; unfold bind; by rewrite Heq];
      done.
  - destruct (Hq ("/" ++ database ++ "/_all_docs")%string GET None w eq_refl eq_refl)
      as (w' & Heq & Hw).
    eapply Hdone; [|exact Hw].
    unfold find_all, bind. by rewrite Heq.
  - edestruct (Hq ("/" ++ database)%string PUT) as (w' & Heq & Hw);
      [| |eapply Hdone; [|exact Hw]; unfold create_db, try_except_http, bind;
           by rewrite Heq]; done.
  - destruct (Hq ("/" ++ database)%string DELETE None w eq_refl eq_refl)
      as (w' & Heq & Hw).
    eapply Hdone; [|exact Hw]. exact Heq.
  - destruct (Hq ("/" ++ database ++ "/" ++ doc_id)%string GET None w eq_refl eq_refl)
      as (w' & Heq & Hw).
    eapply Hdone; [|exact Hw]. exact Heq.
  - destruct (Hq ("/" ++ database ++ "/" ++ doc_id)%string GET None w eq_refl eq_refl)
      as (w' & Heq & Hw).
    eapply Hdone; [|exact Hw].
    unfold delete_document, try_except_http, bind. by rewrite Heq.
  - destruct (overwrite && negb strict) eqn:Hmode.
    + destruct (Hq ("/" ++ database ++ "/" ++ doc_id)%string GET None w eq_refl eq_refl)
        as (w' & Heq & Hw).
      eapply Hdone; [|exact Hw].
      unfold put_document, try_except_http, bind. by rewrite Hmode, Heq.
    + edestruct (Hq ("/" ++ database ++ "/" ++ doc_id)%string PUT) as (w' & Heq & Hw);
        [| |eapply Hdone; [|exact Hw]; unfold put_document, bind, ret, dict_read;
             rewrite Hmode; exact Heq]; done.
  - destruct (Hq ("/" ++ database ++ "/" ++ doc_id)%string GET None w eq_refl eq_refl)
      as (w' & Heq & Hw).
    eapply Hdone; [|exact Hw].
    unfold patch_document, try_except_http, bind. by rewrite Heq.
Qed.

(** C2: whichever query an operation makes and however many attempts
    were refused or timed out before, the first response whose status is
    outside [200, 300) ends the loop on that attempt, and the error raised
    carries that response's status code and parsed body. *)
Theorem rejection_ends_retries (endpoint : string) (method : HTTPMethod)
    (args : option json) (k : nat) (w : world) (nk n' : W)
    (status_code : Z) (body : json) :
  let r := request_of self endpoint method args in
  refused transport k (net w) r = Some nk ->
  Z.of_nat k < max_retries self ->
  transport nk r = (Response status_code body, n') ->
  ~ (200 <= status_code < 300) ->
  exists w' : world,
    couch_query transport self endpoint method args w =
      (Raise (CouchHTTPError body status_code), w')
    /\ wire w' = wire w ++ replicate (S k) r
    /\ net w' = n'.
Proof.
  intros r Hk Hlt Ht Hstatus.
  destruct (couch_query_answered transport self endpoint method args
              k w nk n' status_code body Hk Hlt Ht) as (w' & Heq & _ & Hn & Hw).
  exists w'. split; [|by split].
  rewrite Heq. f_equal.
  destruct (200 <=? status_code)%Z eqn:Hlo; destruct (status_code <? 300)%Z eqn:Hhi;
    try done.
  apply Z.leb_le in Hlo. apply Z.ltb_lt in Hhi. lia.
Qed.

End ExecutorClaims.

(** ** The document operations *)

Section DocumentClaims.

Context {W : Type}.
Variable transport : W -> request -> reply * W.
Variable self : CouchClient.

#[local] Arguments couch_query : simpl never.

(** C3: with [overwrite] set and [strict] clear, [put_document] first
    runs the GET; when it yields a document, its [_rev] is copied into
    the outgoing document before the PUT; a 404 is swallowed and the PUT
    carries the caller's document as it was; any other rejection is
    raised and nothing is PUT.  With [strict] set, or [overwrite] clear,
    the call is the PUT alone and every attempt on the wire is that PUT. *)
Theorem put_document_revision_lookup (database doc_id : string) (document : loc)
    (w : world) :
  let endpoint := ("/" ++ database ++ "/" ++ doc_id)%string in
  let fetch := couch_query transport self endpoint GET None in
  let put := fun payload : dict =>
    couch_query transport self endpoint PUT (Some (JObj payload)) in
  (forall (in_document rev : json) (w1 : world),
      fetch w = (Ok in_document, w1) ->
      getitem in_document "_rev" = Ok rev ->
      let stamped := <[ "_rev" := rev ]> (heap w !!! document) in
      put_document transport self database doc_id document true false w =
      put stamped (with_heap (<[ document := stamped ]> (heap w)) w1))
  /\ (forall (message : json) (w1 : world),
      fetch w = (Raise (CouchHTTPError message 404), w1) ->
      put_document transport self database doc_id document true false w =
      put (heap w !!! document) w1)
  /\ (forall (message : json) (code : Z) (w1 : world),
      code <> 404 ->
      fetch w = (Raise (CouchHTTPError message code), w1) ->
      put_document transport self database doc_id document true false w =
      (Raise (CouchHTTPError message code), w1))
  /\ (forall overwrite strict : bool,
      strict = true \/ overwrite = false ->
      put_document transport self database doc_id document overwrite strict w =
      put (heap w !!! document) w
      /\ exists k : nat,
           wire (put_document transport self database doc_id document
                   overwrite strict w).2
           = wire w ++ replicate k
               (Request PUT (couch_base_uri self ++ endpoint)
                  (Some (JObj (heap w !!! document))) (connection_timeout self))).
Proof.
  intros endpoint fetch put. split; [|split; [|split]].
  - intros in_document rev w1 Hfetch Hrev stamped.
    by apply put_document_fetched with (in_document := in_document).
  - intros message w1 Hfetch.
    pose proof Hfetch as Hframe. apply couch_query_frame in Hframe as (Hh & _ & _).
    unfold put_document. cbn [andb negb].
    unfold bind at 1. unfold try_except_http. unfold bind at 1.
    fold endpoint. fold fetch. rewrite Hfetch.
    cbn [Z.eqb Pos.eqb negb]. unfold ret at 1.
    unfold bind. unfold dict_read. by rewrite Hh.
  - intros message code w1 Hcode Hfetch.
    unfold put_document. cbn [andb negb].
    unfold bind at 1. unfold try_except_http. unfold bind at 1.
    fold endpoint. fold fetch. rewrite Hfetch.
    by rewrite (proj2 (Z.eqb_neq code 404) Hcode).
  - intros overwrite strict Hmode.
    assert (Hput : put_document transport self database doc_id document
                     overwrite strict w = put (heap w !!! document) w).
    { destruct Hmode as [-> | ->]; unfold put_document; rewrite ?andb_false_r;
        cbn [andb negb]; done. }
    split; [exact Hput|].
    rewrite Hput. unfold put.
    destruct (couch_query transport self endpoint PUT
                (Some (JObj (heap w !!! document))) w) as [res w'] eqn:Hq.
    apply couch_query_frame in Hq as (_ & Hw & _). exact Hw.
Qed.

(** C10: the revision found by the lookup is written into the caller's
    own dictionary: after the call, whatever the PUT did, the dictionary
    at [document] is the old one with [_rev] set to the fetched token,
    and no other dictionary has changed. *)
Theorem put_document_stamps_caller (database doc_id : string) (document : loc)
    (w w1 : world) (in_document rev : json) :
  couch_query transport self ("/" ++ database ++ "/" ++ doc_id) GET None w
    = (Ok in_document, w1) ->
  getitem in_document "_rev" = Ok rev ->
  let after := (put_document transport self database doc_id document true false w).2 in
  heap after !!! document = <[ "_rev" := rev ]> (heap w !!! document)
  /\ (heap after !!! document) !! "_rev" = Some rev
  /\ (forall l : loc, l <> document -> heap after !! l = heap w !! l).
Proof.
  intros Hfetch Hrev after. unfold after.
  rewrite (put_document_fetched transport self database doc_id document
             w w1 in_document rev Hfetch Hrev).
  apply couch_query_frame in Hfetch as (Hh & _ & _).
  match goal with
  | |- context [couch_query ?t ?s ?e ?m ?a ?w0] =>
      destruct (couch_query t s e m a w0) as [res w'] eqn:Hput
  end.
  apply couch_query_frame in Hput as (Hh' & _ & _).
  cbn [snd]. rewrite Hh'. cbn [heap with_heap].
  rewrite lookup_total_insert_eq. split; [done|]. split.
  - by rewrite lookup_insert_eq.
  - intros l Hl. by rewrite lookup_insert_ne.
Qed.

(** C4: [patch_document] runs the GET; the fetched document, or the
    empty one after a 404 when [strict] is clear, is merged with the
    diff, whose keys win, and the merged dictionary is the payload of the
    PUT; a 404 under [strict] and any other rejection are raised and
    nothing is PUT. *)
Theorem patch_document_merges (database doc_id : string) (document_diff : dict)
    (strict : bool) (w : world) :
  let endpoint := ("/" ++ database ++ "/" ++ doc_id)%string in
  let fetch := couch_query transport self endpoint GET None in
  let put := fun payload : dict =>
    couch_query transport self endpoint PUT (Some (JObj payload)) in
  (forall (stored : dict) (w1 : world),
      fetch w = (Ok (JObj stored), w1) ->
      let merged := document_diff ∪ stored in
      patch_document transport self database doc_id document_diff strict w =
      put merged w1
      /\ (forall (key : string) (v : json),
            document_diff !! key = Some v -> merged !! key = Some v)
      /\ (forall key : string,
            document_diff !! key = None -> merged !! key = stored !! key))
  /\ (forall (message : json) (w1 : world),
      strict = false ->
      fetch w = (Raise (CouchHTTPError message 404), w1) ->
      patch_document transport self database doc_id document_diff strict w =
      put document_diff w1)
  /\ (forall (message : json) (w1 : world),
      strict = true ->
      fetch w = (Raise (CouchHTTPError message 404), w1) ->
      patch_document transport self database doc_id document_diff strict w =
      (Raise (CouchHTTPError message 404), w1))
  /\ (forall (message : json) (code : Z) (w1 : world),
      code <> 404 ->
      fetch w = (Raise (CouchHTTPError message code), w1) ->
      patch_document transport self database doc_id document_diff strict w =
      (Raise (CouchHTTPError message code), w1)).
Proof.
  intros endpoint fetch put.
  split; [|split; [|split]].
  - intros stored w1 Hfetch merged. split; [|split].
    + unfold patch_document. unfold bind at 1. unfold try_except_http.
      fold endpoint. fold fetch. rewrite Hfetch.
      unfold bind at 1. unfold lift, merge. done.
    + intros key v Hv. by apply lookup_union_Some_l.
    + intros key Hnone. by apply lookup_union_r.
  - intros message w1 -> Hfetch.
    unfold patch_document. unfold bind at 1. unfold try_except_http.
    fold endpoint. fold fetch. rewrite Hfetch.
    cbn [orb negb Z.eqb Pos.eqb]. unfold ret at 1.
    unfold bind at 1. unfold lift, merge.
    by rewrite (right_id_L ∅ (∪)).
  - intros message w1 -> Hfetch.
    unfold patch_document. unfold bind at 1. unfold try_except_http.
    fold endpoint. fold fetch. by rewrite Hfetch.
  - intros message code w1 Hcode Hfetch.
    unfold patch_document. unfold bind at 1. unfold try_except_http.
    fold endpoint. fold fetch. rewrite Hfetch.
    rewrite (proj2 (Z.eqb_neq code 404) Hcode), orb_true_r. done.
Qed.

(** C5: when the GET that [delete_document] starts with is rejected
    with 404, the call returns false without any DELETE being attempted
    if [strict] is clear, and raises the 404 if [strict] is set; a
    rejection with another code, of the GET or of the DELETE, is raised
    in both modes. *)
Theorem delete_document_tolerates_missing (database doc_id : string)
    (strict : bool) (w : world) :
  let endpoint := ("/" ++ database ++ "/" ++ doc_id)%string in
  let fetch := couch_query transport self endpoint GET None in
  (forall (message : json) (w1 : world),
      strict = false ->
      fetch w = (Raise (CouchHTTPError message 404), w1) ->
      delete_document transport self database doc_id strict w
        = (Ok (JBool false), w1)
      /\ exists attempts : list request,
           wire w1 = wire w ++ attempts
           /\ Forall (fun r => req_method r <> DELETE) attempts)
  /\ (forall (message : json) (w1 : world),
      strict = true ->
      fetch w = (Raise (CouchHTTPError message 404), w1) ->
      delete_document transport self database doc_id strict w
        = (Raise (CouchHTTPError message 404), w1))
  /\ (forall (message : json) (code : Z) (w1 : world),
      code <> 404 ->
      fetch w = (Raise (CouchHTTPError message code), w1) ->
      delete_document transport self database doc_id strict w
        = (Raise (CouchHTTPError message code), w1))
  /\ (forall (document message : json) (rev : string) (code : Z) (w1 w2 : world),
      code <> 404 ->
      fetch w = (Ok document, w1) ->
      getitem document "_rev" = Ok (JStr rev) ->
      couch_query transport self
        ("/" ++ database ++ "/" ++ doc_id ++ "?rev=" ++ rev) DELETE None w1
        = (Raise (CouchHTTPError message code), w2) ->
      delete_document transport self database doc_id strict w
        = (Raise (CouchHTTPError message code), w2)).
Proof.
  intros endpoint fetch.
  split; [|split; [|split]].
  - intros message w1 -> Hfetch. split.
    + unfold delete_document, try_except_http. unfold bind at 1.
      fold endpoint. fold fetch. by rewrite Hfetch.
    + apply couch_query_frame in Hfetch as (_ & (k & Hw) & _).
      eexists. split; [exact Hw|].
      apply Forall_replicate. by destruct self.
  - intros message w1 -> Hfetch.
    unfold delete_document, try_except_http. unfold bind at 1.
    fold endpoint. fold fetch. by rewrite Hfetch.
  - intros message code w1 Hcode Hfetch.
    unfold delete_document, try_except_http. unfold bind at 1.
    fold endpoint. fold fetch. rewrite Hfetch.
    rewrite (proj2 (Z.eqb_neq code 404) Hcode), orb_true_r. done.
  - intros document message rev code w1 w2 Hcode Hfetch Hrev Hdelete.
    unfold delete_document, try_except_http. unfold bind at 1.
    fold endpoint. fold fetch. rewrite Hfetch.
    unfold bind at 1. unfold lift at 1. rewrite Hrev.
    unfold bind at 1. unfold lift, str_concat.
    rewrite Hdelete.
    rewrite (proj2 (Z.eqb_neq code 404) Hcode), orb_true_r. done.
Qed.

(** C6: [create_db] returns true when its PUT of [/{db}] succeeds,
    raises the already-exists error when the PUT is rejected with 412,
    and raises the rejection as it is for any other status. *)
Theorem create_db_outcomes (database : string) (shards replicas : option Z)
    (partitioned : bool) (w : world) :
  let put := couch_query transport self ("/" ++ database) PUT
               (Some (JObj (create_db_options shards replicas partitioned))) in
  (forall (response : json) (w1 : world),
      put w = (Ok response, w1) ->
      create_db transport self database shards replicas partitioned w
        = (Ok (JBool true), w1))
  /\ (forall (message : json) (w1 : world),
      put w = (Raise (CouchHTTPError message 412), w1) ->
      create_db transport self database shards replicas partitioned w
        = (Raise (ObjectAlreadyExistsException "Database already exists" database), w1))
  /\ (forall (message : json) (code : Z) (w1 : world),
      code <> 412 ->
      put w = (Raise (CouchHTTPError message code), w1) ->
      create_db transport self database shards replicas partitioned w
        = (Raise (CouchHTTPError message code), w1)).
Proof.
  intros put. split; [|split].
  - intros response w1 Hput.
    unfold create_db, try_except_http, bind. fold put. by rewrite Hput.
  - intros message w1 Hput.
    unfold create_db, try_except_http, bind. fold put. by rewrite Hput.
  - intros message code w1 Hcode Hput.
    unfold create_db, try_except_http, bind. fold put. rewrite Hput.
    by rewrite (proj2 (Z.eqb_neq code 412) Hcode).
Qed.

End DocumentClaims.

(** ** The Mango queries *)

Section QueryClaims.

Context {W : Type}.
Variable transport : W -> request -> reply * W.
Variable self : CouchClient.

#[local] Arguments couch_query : simpl never.



End QueryClaims.

(** ** The base address *)

Section BaseAddress.

Local Open Scope string_scope.

Lemma endswith_slash_cons (c : Ascii.ascii) (s : string) :
  s <> "" -> PyStr.endswith (String c s) "/" = PyStr.endswith s "/".
Proof.
  destruct s as [|c' s']; [done|]. intros _.
  unfold PyStr.endswith. cbn [String.length Nat.leb Nat.sub].
  by rewrite Nat.sub_0_r.
Qed.

Lemma endswith_slashes_cons (c : Ascii.ascii) (s : string) :
  (2 <= String.length s)%nat ->
  PyStr.endswith (String c s) "//" = PyStr.endswith s "//".
Proof.
  destruct s as [|c1 [|c2 s']]; cbn [String.length]; [lia | lia |]. intros _.
  unfold PyStr.endswith. cbn [String.length Nat.leb Nat.sub].
  by rewrite Nat.sub_0_r.
Qed.

Lemma drop_last_cons (c : Ascii.ascii) (s : string) :
  s <> "" -> PyStr.drop_last (String c s) = String c (PyStr.drop_last s).
Proof.
  destruct s as [|c' s']; [done|]. intros _.
  unfold PyStr.drop_last. cbn [String.length Nat.sub].
  by rewrite Nat.sub_0_r.
Qed.

Lemma endswith_slash_drop_last (s : string) :
  PyStr.endswith s "/" = true -> s = PyStr.drop_last s ++ "/".
Proof.
  induction s as [|c s IH]; [done|].
  destruct s as [|c' s'].
  - unfold PyStr.endswith. cbn.
    match goal with
    | |- context [Ascii.eqb c ?x] => destruct (Ascii.eqb_spec c x)
    end; [by subst | done].
  - rewrite endswith_slash_cons, drop_last_cons by done.
    intros Hs. apply IH in Hs.
    change (String c (String c' s')
            = String c (PyStr.drop_last (String c' s') ++ "/")).
    by f_equal.
Qed.

Lemma endswith_slashes_slash (s : string) :
  PyStr.endswith s "//" = true -> PyStr.endswith s "/" = true.
Proof.
  induction s as [|c s IH]; [done|].
  destruct s as [|c1 [|c2 s']]; [done| |].
  - unfold PyStr.endswith. cbn.
    repeat match goal with
    | |- context [Ascii.eqb ?a ?x] => destruct (Ascii.eqb_spec a x)
    end; done.
  - rewrite endswith_slashes_cons by (cbn [String.length]; lia).
    rewrite endswith_slash_cons by done. exact IH.
Qed.

Lemma drop_last_endswith (s : string) :
  PyStr.endswith s "/" = true ->
  PyStr.endswith (PyStr.drop_last s) "/" = PyStr.endswith s "//".
Proof.
  induction s as [|c s IH]; [done|].
  destruct s as [|c1 [|c2 s']]; [done| |].
  - unfold PyStr.endswith, PyStr.drop_last. cbn.
    repeat match goal with
    | |- context [Ascii.eqb ?a ?x] => destruct (Ascii.eqb_spec a x)
    end; done.
  - rewrite endswith_slash_cons by done. intros Hs.
    rewrite endswith_slashes_cons by (cbn [String.length]; lia).
    rewrite drop_last_cons by done.
    rewrite endswith_slash_cons; [by apply IH|].
    by rewrite drop_last_cons.
Qed.

(** What the constructor stores, by cases on the URI it is given. *)
Lemma init_base_uri (uri : string) :
  (PyStr.endswith uri "/" = true -> uri = couch_base_uri (init uri) ++ "/")
  /\ (PyStr.endswith uri "/" = false -> couch_base_uri (init uri) = uri)
  /\ PyStr.endswith (couch_base_uri (init uri)) "/" = PyStr.endswith uri "//".
Proof.
  unfold init. cbn [couch_base_uri].
  destruct (PyStr.endswith uri "/") eqn:Hslash.
  - split; [intros _; by apply endswith_slash_drop_last|].
    split; [done|]. by apply drop_last_endswith.
  - split; [done|]. split; [done|].
    rewrite Hslash. symmetry.
    destruct (PyStr.endswith uri "//") eqn:Hs; [|done].
    apply endswith_slashes_slash in Hs. congruence.
Qed.

End BaseAddress.

(** ** Where the requests go *)

Section Wire.

Context {W : Type}.
Variable transport : W -> request -> reply * W.
Variable self : CouchClient.
Variable P : request -> Prop.

Lemma extends_wire_refl (w : @world W) : extends_wire P w w.
Proof. exists []. by rewrite app_nil_r. Qed.

Lemma extends_wire_trans (w1 w2 w3 : @world W) :
  extends_wire P w1 w2 -> extends_wire P w2 w3 -> extends_wire P w1 w3.
Proof.
  intros (a1 & Hw1 & HP1) (a2 & Hw2 & HP2). exists (a1 ++ a2). split.
  - by rewrite Hw2, Hw1, app_assoc.
  - by apply Forall_app.
Qed.

Lemma wire_sound_ret {A} (a : A) : wire_sound P (@ret W A a).
Proof. intros w w' res [= <- <-]. apply extends_wire_refl. Qed.

Lemma wire_sound_raise {A} (e : exn) : wire_sound P (@raise W A e).
Proof. intros w w' res [= <- <-]. apply extends_wire_refl. Qed.

Lemma wire_sound_lift {A} (r : result A) : wire_sound P (@lift W A r).
Proof. intros w w' res [= <- <-]. apply extends_wire_refl. Qed.

Lemma wire_sound_bind {A B} (m : @M W A) (k : A -> @M W B) :
  wire_sound P m -> (forall a : A, wire_sound P (k a)) -> wire_sound P (bind m k).
Proof.
  intros Hm Hk w w' res. unfold bind.
  destruct (m w) as [[a|e|] w1] eqn:Hrun.
  - intros Hrest. eapply extends_wire_trans; [by eapply Hm | by eapply Hk].
  - intros [= <- <-]. by eapply Hm.
  - intros [= <- <-]. by eapply Hm.
Qed.

Lemma wire_sound_try_except_http {A} (m : @M W A) (handler : json -> Z -> @M W A) :
  wire_sound P m ->
  (forall (message : json) (code : Z), wire_sound P (handler message code)) ->
  wire_sound P (try_except_http m handler).
Proof.
  intros Hm Hh w w' res. unfold try_except_http.
  destruct (m w) as [[a|e|] w1] eqn:Hrun.
  - intros [= <- <-]. by eapply Hm.
  - destruct e; try (intros [= <- <-]; by eapply Hm).
    intros Hrest. eapply extends_wire_trans; [by eapply Hm | by eapply Hh].
  - intros [= <- <-]. by eapply Hm.
Qed.

Lemma wire_sound_dict_read (l : loc) : wire_sound P (@dict_read W l).
Proof. intros w w' res [= <- <-]. apply extends_wire_refl. Qed.

Lemma wire_sound_dict_setitem (l : loc) (key : string) (v : json) :
  wire_sound P (@dict_setitem W l key v).
Proof.
  intros w w' res [= <- <-]. exists []. cbn [wire with_heap].
  by rewrite app_nil_r.
Qed.

Lemma wire_sound_augment_selector (selector : loc) (sort : option (list sort_entry)) :
  wire_sound P (@augment_selector W selector sort).
Proof.
  intros w w' res Hrun.
  destruct (augment_selector_run selector sort w) as (h' & Heq & _).
  rewrite Heq in Hrun. injection Hrun as <- <-. exists []. cbn [wire with_heap].
  by rewrite app_nil_r.
Qed.

Lemma wire_sound_couch_query (endpoint : string) (method : HTTPMethod)
    (args : option json) :
  P (request_of self endpoint method args) ->
  wire_sound P (couch_query transport self endpoint method args).
Proof.
  intros HP w w' res Hrun.
  apply couch_query_frame in Hrun as (_ & (k & Hw) & _).
  eexists. split; [exact Hw|]. by apply Forall_replicate.
Qed.

End Wire.

Section WireOfOperations.

Context {W : Type}.
Variable transport : W -> request -> reply * W.
Variable self : CouchClient.

Lemma request_of_targets_base (path : string) (method : HTTPMethod)
    (args : option json) :
  targets_base self (request_of self ("/" ++ path) method args).
Proof. exists path. by destruct method. Qed.

(** Every operation extends the wire by requests whose URL is the base
    address followed by a path that begins with the separator. *)
Lemma call_wire_sound (o : operation) :
  wire_sound (targets_base self) (call transport self o).
Proof.
  pose proof request_of_targets_base as Hreq.
  destruct o; cbn [call];
    unfold get_server_version, find, find_all, create_db, delete_db,
      get_document, delete_document, put_document, patch_document;
    repeat first
      [ apply wire_sound_bind; [|intros ?]
      | apply wire_sound_try_except_http; [|intros ? ?]
      | apply wire_sound_couch_query; apply Hreq
      | apply wire_sound_augment_selector
      | apply wire_sound_dict_read
      | apply wire_sound_dict_setitem
      | apply wire_sound_lift
      | apply wire_sound_ret
      | apply wire_sound_raise
      | match goal with
        | |- wire_sound _ (if ?b then _ else _) => destruct b
        end ].
Qed.

End WireOfOperations.

(** ** Termination *)

Section Termination.

Context {W : Type}.
Variable transport : W -> request -> reply * W.
Variable self : CouchClient.

Lemma terminates_ret {A} (a : A) : terminates (@ret W A a).
Proof. by intros w. Qed.

Lemma terminates_raise {A} (e : exn) : terminates (@raise W A e).
Proof. by intros w. Qed.

Lemma terminates_lift {A} (r : result A) : r <> Diverge -> terminates (@lift W A r).
Proof. by intros Hr w. Qed.

Lemma getitem_terminates (j : json) (key : string) : getitem j key <> Diverge.
Proof. destruct j; try done. simpl. by destruct (_ !! key). Qed.

Lemma contains_terminates (key : string) (j : json) : contains key j <> Diverge.
Proof. by destruct j. Qed.

Lemma str_concat_terminates (prefix : string) (v : json) :
  str_concat prefix v <> Diverge.
Proof. by destruct v. Qed.

Lemma merge_terminates (document : json) (document_diff : dict) :
  merge document document_diff <> Diverge.
Proof. by destruct document. Qed.

Lemma terminates_bind {A B} (m : @M W A) (k : A -> @M W B) :
  terminates m -> (forall a : A, terminates (k a)) -> terminates (bind m k).
Proof.
  intros Hm Hk w. unfold bind. specialize (Hm w).
  destruct (m w) as [[a|e|] w1]; [apply Hk | done | done].
Qed.

Lemma terminates_try_except_http {A} (m : @M W A) (handler : json -> Z -> @M W A) :
  terminates m ->
  (forall (message : json) (code : Z), terminates (handler message code)) ->
  terminates (try_except_http m handler).
Proof.
  intros Hm Hh w. unfold try_except_http. specialize (Hm w).
  destruct (m w) as [[a|e|] w1]; [done | | done].
  destruct e; try done. apply Hh.
Qed.

Lemma terminates_dict_read (l : loc) : terminates (@dict_read W l).
Proof. by intros w. Qed.

Lemma terminates_dict_setitem (l : loc) (key : string) (v : json) :
  terminates (@dict_setitem W l key v).
Proof. by intros w. Qed.

Lemma terminates_augment_selector (selector : loc) (sort : option (list sort_entry)) :
  terminates (@augment_selector W selector sort).
Proof.
  intros w. destruct (augment_selector_run selector sort w) as (h' & Heq & _).
  by rewrite Heq.
Qed.

Lemma terminates_couch_query (endpoint : string) (method : HTTPMethod)
    (args : option json) :
  terminates (couch_query transport self endpoint method args).
Proof.
  intros w.
  destruct (couch_query transport self endpoint method args w) as [res w'] eqn:Hrun.
  by apply couch_query_frame in Hrun as (_ & _ & Hres).
Qed.

(** Every operation returns or raises: [max_retries] rounds of fuel are
    enough for each of its queries. *)
Lemma call_terminates (o : operation) : terminates (call transport self o).
Proof.
  destruct o; cbn [call];
    unfold get_server_version, find, find_all, create_db, delete_db,
      get_document, delete_document, put_document, patch_document;
    repeat first
      [ apply terminates_bind; [|intros ?]
      | apply terminates_try_except_http; [|intros ? ?]
      | apply terminates_couch_query
      | apply terminates_augment_selector
      | apply terminates_dict_read
      | apply terminates_dict_setitem
      | apply terminates_lift;
          first [ apply getitem_terminates | apply contains_terminates
                | apply str_concat_terminates | apply merge_terminates ]
      | apply terminates_ret
      | apply terminates_raise
      | match goal with
        | |- terminates (if ?b then _ else _) => destruct b
        end ].
Qed.

End Termination.

(** ** The constructor *)

Section Constructor.

(** C8, as the constructor has it: one trailing separator is removed
    when the URI ends with one, so the stored base address ends with a
    separator only when the URI ended with two of them; and every request
    of every operation goes to the stored base address followed by a
    path that begins with the separator. *)
Theorem base_uri_strips_one_separator (uri : string) :
  (PyStr.endswith uri "/" = true -> uri = (couch_base_uri (init uri) ++ "/")%string)
  /\ (PyStr.endswith uri "/" = false -> couch_base_uri (init uri) = uri)
  /\ (PyStr.endswith uri "//" = false ->
      PyStr.endswith (couch_base_uri (init uri)) "/" = false)
  /\ (forall (W : Type) (transport : W -> request -> reply * W)
        (o : operation) (w : world),
        extends_wire (targets_base (init uri)) w (call transport (init uri) o w).2).
Proof.
  destruct (init_base_uri uri) as (Hstrip & Hkeep & Hends).
  split; [done|]. split; [done|]. split.
  - intros Hdouble. by rewrite Hends.
  - intros W transport o w.
    destruct (call transport (init uri) o w) as [res w'] eqn:Hrun.
    by apply call_wire_sound in Hrun.
Qed.

End Constructor.

(** * Beyond the retry and tolerance rules *)

(** ** More on the executor *)

Section ExecutorMore.

Context {W : Type}.
Variable transport : W -> request -> reply * W.
Variable self : CouchClient.
Variables (endpoint : string) (method : HTTPMethod) (args : option json).

Let r := request_of self endpoint method args.

(** The loop makes no more attempts than it has rounds. *)
Lemma couch_query_loop_bounded (fuel : nat) :
  forall (try_n : Z) (w w' : world) (res : result json),
    couch_query_loop transport self endpoint method args fuel try_n w = (res, w') ->
    exists k : nat, (k <= fuel)%nat /\ wire w' = wire w ++ replicate k r.
Proof.
  induction fuel as [|fuel IH]; intros try_n w w' res; cbn [couch_query_loop];
    destruct (try_n <? max_retries self)%Z.
  - intros [= <- <-]. exists 0%nat. by rewrite app_nil_r.
  - intros [= <- <-]. exists 0%nat. by rewrite app_nil_r.
  - unfold bind at 1. unfold send. fold r.
    destruct (transport (net w) r) as [a n'].
    assert (Hnext : forall out : list string,
      couch_query_loop transport self endpoint method args fuel (try_n + 1)
        {| heap := heap w; net := n'; wire := wire w ++ [r]; stdout := out |}
        = (res, w') ->
      exists k : nat, (k <= S fuel)%nat /\ wire w' = wire w ++ replicate k r).
    { intros out Hrun. apply IH in Hrun as (k & Hk & Hw). simpl in Hw.
      exists (S k). split; [lia|]. by rewrite Hw, <- app_assoc. }
    destruct a as [status_code body| | |name].
    + destruct ((200 <=? status_code)%Z && (status_code <? 300)%Z);
        intros [= <- <-]; exists 1%nat; (split; [lia | done]).
    + unfold bind. destruct (verbose self); simpl; apply Hnext.
    + unfold bind. destruct (verbose self); simpl; apply Hnext.
    + intros [= <- <-]. exists 1%nat. split; [lia | done].
  - intros [= <- <-]. exists 0%nat. split; [lia|]. by rewrite app_nil_r.
Qed.

(** X1: whatever the transport does, the attempts of one query are at
    most [max_retries] copies of one request: the verb asked for, the base
    address followed by the endpoint, the client's timeout, and the body
    only for POST and PUT; the caller's dictionaries are not touched. *)
Theorem couch_query_attempts (w : world) :
  let after := (couch_query transport self endpoint method args w).2 in
  exists k : nat,
    (k <= Z.to_nat (max_retries self))%nat
    /\ wire after = wire w ++ replicate k
         (Request method (couch_base_uri self ++ endpoint)%string
            (match method with
             | POST | PUT => args
             | GET | DELETE => None
             end)
            (connection_timeout self))
    /\ heap after = heap w.
Proof.
  intros after. unfold after.
  destruct (couch_query transport self endpoint method args w) as [res w'] eqn:Hrun.
  pose proof Hrun as Hframe. apply couch_query_frame in Hframe as (Hh & _ & _).
  apply couch_query_loop_bounded in Hrun as (k & Hk & Hw).
  exists k. split; [done|]. split; [|done].
  cbn [snd]. rewrite Hw. unfold r. by destruct method.
Qed.

(** X2: after [k] attempts that were refused or timed out, with [k]
    below the limit, a response with a status in [200, 300) makes the query
    return that response's body; the wire then holds [k + 1] attempts. *)
Theorem couch_query_returns_body (k : nat) (w : world) (nk n' : W)
    (status_code : Z) (body : json) :
  refused transport k (net w) r = Some nk ->
  Z.of_nat k < max_retries self ->
  transport nk r = (Response status_code body, n') ->
  200 <= status_code < 300 ->
  exists w' : world,
    couch_query transport self endpoint method args w = (Ok body, w')
    /\ wire w' = wire w ++ replicate (S k) r
    /\ net w' = n'.
Proof.
  intros Hk Hlt Ht Hstatus.
  destruct (couch_query_answered transport self endpoint method args
              k w nk n' status_code body Hk Hlt Ht) as (w' & Heq & _ & Hn & Hw).
  exists w'. split; [|by split].
  rewrite Heq.
  rewrite (proj2 (Z.leb_le 200 status_code)) by lia.
  by rewrite (proj2 (Z.ltb_lt status_code 300)) by lia.
Qed.

Lemma couch_query_loop_raises (fuel : nat) :
  forall (try_n : Z) (w w' : world) (e : exn),
    couch_query_loop transport self endpoint method args fuel try_n w = (Raise e, w') ->
    (exists (body : json) (code : Z),
        e = CouchHTTPError body code /\ ~ (200 <= code < 300))
    \/ e = ConnectionError
             ("Gave up connecting to CouchDB after "
              ++ PyStr.str (Z.max try_n (max_retries self)) ++ " tries")%string
    \/ (exists name : string, e = TransportError name).
Proof.
  induction fuel as [|fuel IH]; intros try_n w w' e; cbn [couch_query_loop];
    destruct (try_n <? max_retries self)%Z eqn:Hg.
  - intros [=].
  - intros [= <- <-]. right; left. apply Z.ltb_ge in Hg. by rewrite Z.max_l by lia.
  - apply Z.ltb_lt in Hg. unfold bind at 1. unfold send.
    destruct (transport (net w) (request_of self endpoint method args)) as [a n'].
    assert (Hnext : forall w1 : world,
      couch_query_loop transport self endpoint method args fuel (try_n + 1) w1
        = (Raise e, w') ->
      (exists (body : json) (code : Z),
          e = CouchHTTPError body code /\ ~ (200 <= code < 300))
      \/ e = ConnectionError
               ("Gave up connecting to CouchDB after "
                ++ PyStr.str (Z.max try_n (max_retries self)) ++ " tries")%string
      \/ (exists name : string, e = TransportError name)).
    { intros w1 Hrun. apply IH in Hrun as [Hhttp | [-> | Hother]];
        [by left | right; left | by right; right].
      by rewrite !Z.max_r by lia. }
    destruct a as [status_code body| | |name].
    + destruct (200 <=? status_code)%Z eqn:Hlo;
        destruct (status_code <? 300)%Z eqn:Hhi; cbn [andb];
        intros [= <- <-]; left; exists body, status_code; (split; [done|]).
      * apply Z.ltb_ge in Hhi. lia.
      * apply Z.leb_gt in Hlo. lia.
      * apply Z.leb_gt in Hlo. lia.
    + unfold bind. destruct (verbose self); simpl; apply Hnext.
    + unfold bind. destruct (verbose self); simpl; apply Hnext.
    + intros [= <- <-]. right; right. by exists name.
  - intros [= <- <-]. right; left. apply Z.ltb_ge in Hg. by rewrite Z.max_l by lia.
Qed.

(** What the transport raises on an attempt leaves the loop at once. *)
Lemma couch_query_failed (k : nat) (w : world) (nk n' : W) (name : string) :
  refused transport k (net w) r = Some nk ->
  Z.of_nat k < max_retries self ->
  transport nk r = (Failed name, n') ->
  exists w' : world,
    couch_query transport self endpoint method args w
      = (Raise (TransportError name), w')
    /\ wire w' = wire w ++ replicate (S k) r
    /\ net w' = n'.
Proof.
  intros Hk Hlt Ht. unfold couch_query.
  replace (Z.to_nat (max_retries self))
    with (k + S (Z.to_nat (max_retries self) - S k))%nat by lia.
  destruct (couch_query_loop_refused transport self endpoint method args k
              (S (Z.to_nat (max_retries self) - S k)) 0 w nk Hk)
    as (w1 & Heq & Hh & Hn & Hw); [lia|].
  rewrite Heq. cbn [couch_query_loop]. rewrite guard_true by lia.
  unfold bind, send. fold r. rewrite Hn, Ht.
  eexists. split; [reflexivity|]. simpl. split; [|done].
  rewrite Hw, <- app_assoc. f_equal. symmetry. apply replicate_cons_app.
Qed.

(** X3: a query raises a rejection, whose status code is then outside
    [200, 300), or the connection error, whose message then gives
    [max_retries] (0 when the limit is negative) as the number of tries, or
    else an exception that the session call or [response.json()] raised;
    such an exception is not retried: it leaves the query on the attempt
    that raised it. *)
Theorem couch_query_raises_only (w : world) :
  (forall (w' : world) (e : exn),
      couch_query transport self endpoint method args w = (Raise e, w') ->
      (exists (body : json) (code : Z),
          e = CouchHTTPError body code /\ ~ (200 <= code < 300))
      \/ e = ConnectionError
               ("Gave up connecting to CouchDB after "
                ++ PyStr.str (Z.max 0 (max_retries self)) ++ " tries")%string
      \/ (exists name : string, e = TransportError name))
  /\ (forall (k : nat) (nk n' : W) (name : string),
        refused transport k (net w) r = Some nk ->
        Z.of_nat k < max_retries self ->
        transport nk r = (Failed name, n') ->
        exists w' : world,
          couch_query transport self endpoint method args w
            = (Raise (TransportError name), w')
          /\ wire w' = wire w ++ replicate (S k) r
          /\ net w' = n').
Proof.
  split.
  - intros w' e. apply couch_query_loop_raises.
  - intros k nk n' name. apply couch_query_failed.
Qed.

End ExecutorMore.

(** ** Every operation: attempts, output, heap *)

Section OperationsMore.

Context {W : Type}.
Variable transport : W -> request -> reply * W.
Variable self : CouchClient.

#[local] Arguments couch_query : simpl never.

(** With a limit of zero or less the loop is not entered. *)
Lemma couch_query_not_entered (endpoint : string) (method : HTTPMethod)
    (args : option json) (w : world) :
  max_retries self <= 0 ->
  couch_query transport self endpoint method args w =
  (Raise (ConnectionError "Gave up connecting to CouchDB after 0 tries"), w).
Proof.
  intros Hle. unfold couch_query.
  replace (Z.to_nat (max_retries self)) with 0%nat by lia.
  cbn [couch_query_loop]. by rewrite guard_false by lia.
Qed.

(** X4: with [max_retries] zero or negative no operation reaches the
    transport: each raises the connection error that reports 0 tries, and
    the wire and the transport are as before the call. *)
Theorem no_attempt_without_retries_left (o : operation) (w : world) :
  max_retries self <= 0 ->
  exists w' : world,
    call transport self o w =
      (Raise (ConnectionError "Gave up connecting to CouchDB after 0 tries"), w')
    /\ wire w' = wire w /\ net w' = net w.
Proof.
  intros Hle.
  pose proof (fun endpoint method args w0 =>
    couch_query_not_entered endpoint method args w0 Hle) as Hq.
  destruct o; cbn [call].
  - exists w. unfold get_server_version, bind. by rewrite Hq.
  - destruct (find_run transport self database selector fields sort page page_size w)
      as (h' & _ & _ & Hrun).
    eexists. rewrite Hrun. unfold bind. rewrite Hq. done.
  - exists w. unfold find_all, bind. by rewrite Hq.
  - exists w. unfold create_db, try_except_http, bind. by rewrite Hq.
  - exists w. unfold delete_db. by rewrite Hq.
  - exists w. unfold get_document. by rewrite Hq.
  - exists w. unfold delete_document, try_except_http, bind. by rewrite Hq.
  - exists w. unfold put_document, try_except_http, bind, ret, dict_read.
    destruct (overwrite && negb strict); by rewrite Hq.
  - exists w. unfold patch_document, try_except_http, bind. by rewrite Hq.
Qed.

(** *** Counting attempts *)

Lemma adds_at_most_le {A} (n n' : nat) (m : @M W A) :
  adds_at_most n m -> (n <= n')%nat -> adds_at_most n' m.
Proof.
  intros Hm Hle w w' res Hrun. apply Hm in Hrun as (attempts & Hw & Hlen).
  exists attempts. split; [done | lia].
Qed.

Lemma adds_at_most_ret {A} (a : A) : adds_at_most 0 (@ret W A a).
Proof. intros w w' res [= <- <-]. exists []. by rewrite app_nil_r. Qed.

Lemma adds_at_most_raise {A} (e : exn) : adds_at_most 0 (@raise W A e).
Proof. intros w w' res [= <- <-]. exists []. by rewrite app_nil_r. Qed.

Lemma adds_at_most_lift {A} (r : result A) : adds_at_most 0 (@lift W A r).
Proof. intros w w' res [= <- <-]. exists []. by rewrite app_nil_r. Qed.

Lemma adds_at_most_dict_read (l : loc) : adds_at_most 0 (@dict_read W l).
Proof. intros w w' res [= <- <-]. exists []. by rewrite app_nil_r. Qed.

Lemma adds_at_most_dict_setitem (l : loc) (key : string) (v : json) :
  adds_at_most 0 (@dict_setitem W l key v).
Proof.
  intros w w' res [= <- <-]. exists []. cbn [wire with_heap]. by rewrite app_nil_r.
Qed.

Lemma adds_at_most_augment_selector (selector : loc) (sort : option (list sort_entry)) :
  adds_at_most 0 (@augment_selector W selector sort).
Proof.
  intros w w' res Hrun.
  destruct (augment_selector_run selector sort w) as (h' & Heq & _).
  rewrite Heq in Hrun. injection Hrun as <- <-. exists []. cbn [wire with_heap].
  by rewrite app_nil_r.
Qed.

Lemma adds_at_most_bind {A B} (n1 n2 : nat) (m : @M W A) (k : A -> @M W B) :
  adds_at_most n1 m -> (forall a : A, adds_at_most n2 (k a)) ->
  adds_at_most (n1 + n2) (bind m k).
Proof.
  intros Hm Hk w w' res. unfold bind.
  destruct (m w) as [[a|e|] w1] eqn:Hrun; apply Hm in Hrun as (a1 & Hw1 & Hlen1).
  - intros Hrest. apply Hk in Hrest as (a2 & Hw2 & Hlen2).
    exists (a1 ++ a2). split; [by rewrite Hw2, Hw1, app_assoc|].
    rewrite length_app. lia.
  - intros [= <- <-]. exists a1. split; [done | lia].
  - intros [= <- <-]. exists a1. split; [done | lia].
Qed.

Lemma adds_at_most_try_except_http {A} (n1 n2 : nat) (m : @M W A)
    (handler : json -> Z -> @M W A) :
  adds_at_most n1 m ->
  (forall (message : json) (code : Z), adds_at_most n2 (handler message code)) ->
  adds_at_most (n1 + n2) (try_except_http m handler).
Proof.
  intros Hm Hh w w' res. unfold try_except_http.
  destruct (m w) as [[a|e|] w1] eqn:Hrun; apply Hm in Hrun as (a1 & Hw1 & Hlen1).
  - intros [= <- <-]. exists a1. split; [done | lia].
  - destruct e; try (intros [= <- <-]; exists a1; split; [done | lia]).
    intros Hrest. apply Hh in Hrest as (a2 & Hw2 & Hlen2).
    exists (a1 ++ a2). split; [by rewrite Hw2, Hw1, app_assoc|].
    rewrite length_app. lia.
  - intros [= <- <-]. exists a1. split; [done | lia].
Qed.

Lemma adds_at_most_if {A} (n1 n2 : nat) (b : bool) (m1 m2 : @M W A) :
  adds_at_most n1 m1 -> adds_at_most n2 m2 ->
  adds_at_most (n1 + n2) (if b then m1 else m2).
Proof.
  intros H1 H2. destruct b; [apply (adds_at_most_le n1) | apply (adds_at_most_le n2)];
    (done || lia).
Qed.

Lemma adds_at_most_couch_query (endpoint : string) (method : HTTPMethod)
    (args : option json) :
  adds_at_most (Z.to_nat (max_retries self))
    (couch_query transport self endpoint method args).
Proof.
  intros w w' res Hrun.
  apply couch_query_loop_bounded in Hrun as (k & Hk & Hw).
  eexists. split; [exact Hw|]. by rewrite length_replicate.
Qed.

(** X5: no operation puts more than twice [max_retries] attempts on the
    wire, whatever the transport answers: each makes at most two queries
    and each query stops at the limit. *)
Theorem call_attempts_bounded (o : operation) (w : world) :
  exists attempts : list request,
    wire (call transport self o w).2 = wire w ++ attempts
    /\ (length attempts <= 2 * Z.to_nat (max_retries self))%nat.
Proof.
  destruct (call transport self o w) as [res w'] eqn:Hrun. cbn [snd].
  revert w w' res Hrun. change (adds_at_most (2 * Z.to_nat (max_retries self))
                                  (call transport self o)).
  destruct o; cbn [call];
    unfold get_server_version, find, find_all, create_db, delete_db,
      get_document, delete_document, put_document, patch_document;
    (eapply adds_at_most_le;
     [ repeat first
         [ eapply adds_at_most_bind; [|intros ?]
         | eapply adds_at_most_try_except_http; [|intros ? ?]
         | eapply adds_at_most_if
         | apply adds_at_most_couch_query
         | apply adds_at_most_augment_selector
         | apply adds_at_most_dict_read
         | apply adds_at_most_dict_setitem
         | apply adds_at_most_lift
         | apply adds_at_most_ret
         | apply adds_at_most_raise ]
     | simpl; lia ]).
Qed.

End OperationsMore.

(** ** What a call leaves alone *)

Section Keeps.

Context {W : Type}.
Variable transport : W -> request -> reply * W.
Variable self : CouchClient.

(** A relation between the worlds before and after, kept by each step the
    client can take: an attempt, a printed line (when the client is
    verbose), and a heap write to an entry that [may] names. *)
Variable R : @world W -> @world W -> Prop.
Variable may : loc -> string -> Prop.
Hypothesis R_refl : forall w : world, R w w.
Hypothesis R_trans : forall w1 w2 w3 : world, R w1 w2 -> R w2 w3 -> R w1 w3.
Hypothesis R_send : forall (w : world) (r : request), R w (send transport r w).2.
Hypothesis R_print :
  verbose self = true -> forall (w : world) (line : string), R w (print line w).2.
Hypothesis R_heap :
  forall (w : world) (h' : gmap loc dict),
    heap_same_outside may w (with_heap h' w) -> R w (with_heap h' w).

Lemma keeps_ret {A} (a : A) : keeps R (@ret W A a).
Proof. intros w w' res [= <- <-]. apply R_refl. Qed.

Lemma keeps_raise {A} (e : exn) : keeps R (@raise W A e).
Proof. intros w w' res [= <- <-]. apply R_refl. Qed.

Lemma keeps_lift {A} (r : result A) : keeps R (@lift W A r).
Proof. intros w w' res [= <- <-]. apply R_refl. Qed.

Lemma keeps_dict_read (l : loc) : keeps R (@dict_read W l).
Proof. intros w w' res [= <- <-]. apply R_refl. Qed.

Lemma keeps_bind {A B} (m : @M W A) (k : A -> @M W B) :
  keeps R m -> (forall a : A, keeps R (k a)) -> keeps R (bind m k).
Proof.
  intros Hm Hk w w' res. unfold bind.
  destruct (m w) as [[a|e|] w1] eqn:Hrun.
  - intros Hrest. eapply R_trans; [by eapply Hm | by eapply Hk].
  - intros [= <- <-]. by eapply Hm.
  - intros [= <- <-]. by eapply Hm.
Qed.

Lemma keeps_try_except_http {A} (m : @M W A) (handler : json -> Z -> @M W A) :
  keeps R m ->
  (forall (message : json) (code : Z), keeps R (handler message code)) ->
  keeps R (try_except_http m handler).
Proof.
  intros Hm Hh w w' res. unfold try_except_http.
  destruct (m w) as [[a|e|] w1] eqn:Hrun.
  - intros [= <- <-]. by eapply Hm.
  - destruct e; try (intros [= <- <-]; by eapply Hm).
    intros Hrest. eapply R_trans; [by eapply Hm | by eapply Hh].
  - intros [= <- <-]. by eapply Hm.
Qed.

Lemma keeps_dict_setitem (l : loc) (key : string) (v : json) :
  may l key -> keeps R (@dict_setitem W l key v).
Proof.
  intros Hmay w w' res [= <- <-]. apply R_heap.
  intros l' key' Hout. cbn [heap with_heap].
  destruct (decide (l' = l)) as [->|Hl].
  - rewrite lookup_total_insert_eq. apply lookup_insert_ne. by intros ->.
  - by rewrite lookup_total_insert_ne.
Qed.

Lemma keeps_augment_selector (selector : loc) (sort : option (list sort_entry)) :
  (forall key : string, may selector key) ->
  keeps R (@augment_selector W selector sort).
Proof.
  intros Hmay w w' res Hrun.
  destruct (augment_selector_run selector sort w) as (h' & Heq & _ & Hother).
  rewrite Heq in Hrun. injection Hrun as <- <-. apply R_heap.
  intros l key Hout. cbn [heap with_heap].
  rewrite !lookup_total_alt, Hother; [done|].
  intros ->. by apply Hout.
Qed.

Lemma keeps_couch_query_loop (endpoint : string) (method : HTTPMethod)
    (args : option json) (fuel : nat) :
  forall try_n : Z,
    keeps R (couch_query_loop transport self endpoint method args fuel try_n).
Proof.
  induction fuel as [|fuel IH]; intros try_n w w' res; cbn [couch_query_loop];
    destruct (try_n <? max_retries self)%Z.
  - intros [= <- <-]. apply R_refl.
  - intros [= <- <-]. apply R_refl.
  - revert w w' res.
    change (keeps R
      (bind (send transport (request_of self endpoint method args))
         (fun response =>
            match response with
            | Response status_code body =>
                if (200 <=? status_code)%Z && (status_code <? 300)%Z
                then ret body
                else raise (CouchHTTPError body status_code)
            | ConnectionRefused =>
                bind (if verbose self
                      then print ("Request (" ++ endpoint ++ ") was refused on try "
                                  ++ PyStr.str try_n)%string
                      else ret tt)
                  (fun _ => couch_query_loop transport self endpoint method args
                              fuel (try_n + 1))
            | TimedOut =>
                bind (if verbose self
                      then print ("Request (" ++ endpoint ++ ") timed out on try "
                                  ++ PyStr.str try_n)%string
                      else ret tt)
                  (fun _ => couch_query_loop transport self endpoint method args
                              fuel (try_n + 1))
            | Failed name => raise (TransportError name)
            end))).
    assert (Hprint : forall line : string,
      keeps R (if verbose self then print line else @ret W unit tt)).
    { intros line. destruct (verbose self) eqn:Hv; [|apply keeps_ret].
      intros w w' res [= <- <-]. by apply (R_print eq_refl w line). }
    apply keeps_bind.
    + intros w w' res Hrun. pose proof (R_send w (request_of self endpoint method args)) as Hs.
      unfold send in *. destruct (transport (net w) _) as [a n'].
      injection Hrun as <- <-. exact Hs.
    + intros [status_code body| | |name].
      * destruct ((200 <=? status_code)%Z && (status_code <? 300)%Z);
          [apply keeps_ret | apply keeps_raise].
      * apply keeps_bind; [apply Hprint | intros _; apply IH].
      * apply keeps_bind; [apply Hprint | intros _; apply IH].
      * apply keeps_raise.
  - intros [= <- <-]. apply R_refl.
Qed.

Lemma keeps_couch_query (endpoint : string) (method : HTTPMethod)
    (args : option json) :
  keeps R (couch_query transport self endpoint method args).
Proof. apply keeps_couch_query_loop. Qed.

(** An operation keeps [R] when [may] covers the entries it assigns to. *)
Lemma call_keeps (o : operation) :
  writes_within may o -> keeps R (call transport self o).
Proof.
  intros Hmay.
  destruct o; cbn [call writes_within] in *;
    unfold get_server_version, find, find_all, create_db, delete_db,
      get_document, delete_document, put_document, patch_document;
    repeat first
      [ apply keeps_bind; [|intros ?]
      | apply keeps_try_except_http; [|intros ? ?]
      | apply keeps_couch_query
      | apply keeps_augment_selector; exact Hmay
      | apply keeps_dict_read
      | apply keeps_dict_setitem; exact Hmay
      | apply keeps_lift
      | apply keeps_ret
      | apply keeps_raise
      | match goal with
        | |- keeps _ (if ?b then _ else _) => destruct b
        end ].
Qed.

End Keeps.

Section Frames.

Context {W : Type}.
Variable transport : W -> request -> reply * W.
Variable self : CouchClient.

Lemma heap_same_outside_refl (may : loc -> string -> Prop) (w : @world W) :
  heap_same_outside may w w.
Proof. by intros l key _. Qed.

Lemma heap_same_outside_trans (may : loc -> string -> Prop) (w1 w2 w3 : @world W) :
  heap_same_outside may w1 w2 -> heap_same_outside may w2 w3 ->
  heap_same_outside may w1 w3.
Proof. intros H12 H23 l key Hout. by rewrite H23, H12. Qed.

(** An operation changes the heap only at the entries it assigns to. *)
Lemma call_heap_same_outside (may : loc -> string -> Prop) (o : operation) :
  writes_within may o ->
  keeps (heap_same_outside may) (call transport self o).
Proof.
  apply (call_keeps transport self (heap_same_outside may) may).
  - apply heap_same_outside_refl.
  - apply heap_same_outside_trans.
  - intros w r l key _. unfold send. by destruct (transport (net w) r).
  - by intros _ w line l key _.
  - by intros w h' Hsame.
Qed.

(** X6: a client that is not verbose prints nothing, whatever operation
    is called and however its attempts end. *)
Theorem quiet_unless_verbose (o : operation) (w : world) :
  verbose self = false ->
  stdout (call transport self o w).2 = stdout w.
Proof.
  intros Hquiet.
  destruct (call transport self o w) as [res w'] eqn:Hrun. cbn [snd].
  revert Hrun.
  apply (call_keeps transport self (fun w w' => stdout w' = stdout w)
           (fun _ _ => True)).
  - done.
  - intros w1 w2 w3 H12 H23. by rewrite H23.
  - intros w0 r. unfold send. by destruct (transport (net w0) r).
  - intros Hverbose. congruence.
  - done.
  - by destruct o.
Qed.

(** X7: [put_document] changes nothing on the heap but the entry [_rev]
    of the document it was given: every other key of that dictionary and
    every other dictionary are as before, in every mode and whatever the
    store answers. *)
Theorem put_document_touches_only_rev (database doc_id : string) (document : loc)
    (overwrite strict : bool) (w : world) (l : loc) (key : string) :
  let after :=
    (put_document transport self database doc_id document overwrite strict w).2 in
  (l, key) <> (document, "_rev") ->
  (heap after !!! l) !! key = (heap w !!! l) !! key.
Proof.
  intros after Hother. unfold after.
  destruct (put_document transport self database doc_id document overwrite strict w)
    as [res w'] eqn:Hrun.
  cbn [snd].
  apply (call_heap_same_outside (fun l key => l = document /\ key = "_rev")
           (PutDocument database doc_id document overwrite strict)) in Hrun;
    [|done].
  apply Hrun. intros [-> ->]. by apply Hother.
Qed.

(** X8: an operation leaves every dictionary alone except the one it was
    handed (the selector of [find] and [find_all], the default one when
    none is given; the document of [put_document]); the other operations
    change no dictionary at all. *)
Theorem call_writes_only_its_dictionary (o : operation) (w : world) (l : loc) :
  written o <> Some l ->
  heap (call transport self o w).2 !!! l = heap w !!! l.
Proof.
  intros Hother.
  destruct (call transport self o w) as [res w'] eqn:Hrun. cbn [snd].
  apply (call_heap_same_outside (fun l _ => written o = Some l) o) in Hrun;
    [|by destruct o].
  apply map_eq. intros key. by apply Hrun.
Qed.

(** Every operation sends requests made by [request_of] only. *)
Lemma call_wire_sound_any (P : request -> Prop) (o : operation) :
  (forall (endpoint : string) (method : HTTPMethod) (args : option json),
      P (request_of self endpoint method args)) ->
  wire_sound P (call transport self o).
Proof.
  intros Hreq.
  destruct o; cbn [call];
    unfold get_server_version, find, find_all, create_db, delete_db,
      get_document, delete_document, put_document, patch_document;
    repeat first
      [ apply wire_sound_bind; [|intros ?]
      | apply wire_sound_try_except_http; [|intros ? ?]
      | apply wire_sound_couch_query; apply Hreq
      | apply wire_sound_augment_selector
      | apply wire_sound_dict_read
      | apply wire_sound_dict_setitem
      | apply wire_sound_lift
      | apply wire_sound_ret
      | apply wire_sound_raise
      | match goal with
        | |- wire_sound _ (if ?b then _ else _) => destruct b
        end ].
Qed.

End Frames.

Section Settings.

Context {W : Type}.
Variable transport : W -> request -> reply * W.
Variable self : CouchClient.

(** X9: after [set_timeout], every attempt of every operation is made
    with the new timeout, and to the same base address as before; GET and
    DELETE attempts carry no body. *)
Theorem set_timeout_takes_effect (timeout : Z) (o : operation) (w : world) :
  extends_wire
    (fun r =>
       req_timeout r = timeout
       /\ (exists endpoint : string,
             req_url r = (couch_base_uri self ++ endpoint)%string)
       /\ (req_method r = GET \/ req_method r = DELETE -> req_json r = None))
    w (call transport (set_timeout self timeout) o w).2.
Proof.
  destruct (call transport (set_timeout self timeout) o w) as [res w'] eqn:Hrun.
  cbn [snd]. revert Hrun. apply call_wire_sound_any.
  intros endpoint method args. split; [by destruct method|]. split.
  - exists endpoint. by destruct method.
  - destruct method; cbn; intros [?|?]; done.
Qed.

End Settings.

(** ** The verbose log *)

Section VerboseLog.

Context {W : Type}.
Variable transport : W -> request -> reply * W.
Variable self : CouchClient.
Variables (endpoint : string) (method : HTTPMethod) (args : option json).

Let r := request_of self endpoint method args.

(** Under [verbose], [k] transient failures print [k] lines, each about
    the endpoint asked for. *)
Lemma couch_query_loop_refused_log (k : nat) :
  verbose self = true ->
  forall (fuel : nat) (try_n : Z) (w : world) (nk : W),
    refused transport k (net w) r = Some nk ->
    try_n + Z.of_nat k <= max_retries self ->
    exists (w' : world) (lines : list string),
      couch_query_loop transport self endpoint method args (k + fuel) try_n w =
      couch_query_loop transport self endpoint method args fuel (try_n + Z.of_nat k) w'
      /\ net w' = nk
      /\ stdout w' = stdout w ++ lines
      /\ length lines = k
      /\ Forall (fun line : string =>
                   exists rest : string,
                     line = ("Request (" ++ endpoint ++ rest)%string) lines.
Proof.
  intros Hverbose.
  induction k as [|k IH]; intros fuel try_n w nk Hk Hle.
  - exists w, []. simpl in Hk. injection Hk as <-.
    rewrite Z.add_0_r, app_nil_r. auto.
  - simpl in Hk.
    destruct (transport (net w) r) as [a n'] eqn:Ht.
    destruct (is_transient a) eqn:Ha; [|discriminate].
    change (S k + fuel)%nat with (S (k + fuel)).
    cbn [couch_query_loop]. rewrite guard_true by lia.
    unfold bind at 1. unfold send. fold r. rewrite Ht. rewrite Hverbose.
    assert (Hnext : forall rest : string,
      exists (w' : world) (lines : list string),
        couch_query_loop transport self endpoint method args (k + fuel) (try_n + 1)
          {| heap := heap w; net := n'; wire := wire w ++ [r];
             stdout := stdout w ++ [("Request (" ++ endpoint ++ rest)%string] |} =
        couch_query_loop transport self endpoint method args fuel
          (try_n + Z.of_nat (S k)) w'
        /\ net w' = nk
        /\ stdout w' = stdout w ++ lines
        /\ length lines = S k
        /\ Forall (fun line : string =>
                     exists rest : string,
                       line = ("Request (" ++ endpoint ++ rest)%string) lines).
    { intros rest.
      destruct (IH fuel (try_n + 1)
                  {| heap := heap w; net := n'; wire := wire w ++ [r];
                     stdout := stdout w ++ [("Request (" ++ endpoint ++ rest)%string] |}
                  nk) as (w' & lines & Heq & Hn & Hout & Hlen & Hall); [exact Hk | lia |].
      exists w', (("Request (" ++ endpoint ++ rest)%string :: lines).
      rewrite Heq. simpl in Hout.
      replace (try_n + 1 + Z.of_nat k) with (try_n + Z.of_nat (S k)) by lia.
      split; [done|]. split; [done|]. split; [by rewrite Hout, <- app_assoc|].
      split; [simpl; by rewrite Hlen|].
      constructor; [by exists rest | done]. }
    destruct a as [status body| | |name]; [discriminate| | |discriminate];
      unfold bind, print; apply Hnext.
Qed.

(** X10: a verbose client prints one line per attempt that was refused
    or timed out, each naming the endpoint, and none for the attempt that
    got a response: [k] lines when the response comes after [k] failures,
    [max_retries] lines when the retries are used up. *)
Theorem verbose_logs_each_failure (w : world) :
  verbose self = true ->
  (forall (k : nat) (nk n' : W) (status_code : Z) (body : json),
      refused transport k (net w) r = Some nk ->
      Z.of_nat k < max_retries self ->
      transport nk r = (Response status_code body, n') ->
      exists lines : list string,
        stdout (couch_query transport self endpoint method args w).2
          = stdout w ++ lines
        /\ length lines = k
        /\ Forall (fun line : string =>
                     exists rest : string,
                       line = ("Request (" ++ endpoint ++ rest)%string) lines)
  /\ (forall nk : W,
        refused transport (Z.to_nat (max_retries self)) (net w) r = Some nk ->
        exists lines : list string,
          stdout (couch_query transport self endpoint method args w).2
            = stdout w ++ lines
          /\ length lines = Z.to_nat (max_retries self)
          /\ Forall (fun line : string =>
                       exists rest : string,
                         line = ("Request (" ++ endpoint ++ rest)%string) lines).
Proof.
  intros Hverbose. split.
  - intros k nk n' status_code body Hk Hlt Ht. unfold couch_query.
    replace (Z.to_nat (max_retries self))
      with (k + S (Z.to_nat (max_retries self) - S k))%nat by lia.
    destruct (couch_query_loop_refused_log k Hverbose
                (S (Z.to_nat (max_retries self) - S k)) 0 w nk Hk)
      as (w1 & lines & Heq & Hn & Hout & Hlen & Hall); [lia|].
    exists lines. rewrite Heq. cbn [couch_query_loop]. rewrite guard_true by lia.
    unfold bind, send. fold r. rewrite Hn, Ht.
    split; [|done].
    by destruct ((200 <=? status_code)%Z && (status_code <? 300)%Z).
  - intros nk Hk. unfold couch_query.
    destruct (Z.le_gt_cases 0 (max_retries self)) as [Hpos|Hneg].
    + destruct (couch_query_loop_refused_log (Z.to_nat (max_retries self)) Hverbose
                  0%nat 0 w nk Hk)
        as (w1 & lines & Heq & Hn & Hout & Hlen & Hall); [lia|].
      exists lines. rewrite Nat.add_0_r in Heq. rewrite Heq.
      cbn [couch_query_loop]. by rewrite guard_false by lia.
    + replace (Z.to_nat (max_retries self)) with 0%nat by lia.
      exists []. cbn [couch_query_loop]. rewrite guard_false by lia.
      by rewrite app_nil_r.
Qed.

End VerboseLog.

(** ** More on the Mango queries *)

Section QueriesMore.

Context {W : Type}.
Variable transport : W -> request -> reply * W.
Variable self : CouchClient.

#[local] Arguments couch_query : simpl never.

(** X11: the query of [find] has a [sort] entry exactly when a sort is
    given (the list of its mappings) and a [fields] entry exactly when
    fields are given, and no entry besides these and [selector], [skip] and
    [limit]; the query of [find_all] is the same without [skip]. *)
Theorem mango_optional_entries (sent : dict) (limit : json) (fields : option json)
    (sort : option (list sort_entry)) (page page_size : Z) :
  let mango := find_mango sent fields sort page page_size in
  let mango_all := find_all_mango sent limit fields sort in
  (mango !! "sort" = (fun s : list sort_entry => JArr (entry_json <$> s)) <$> sort
   /\ mango !! "fields" = fields
   /\ (forall key : string,
         is_Some (mango !! key) ->
         key ∈ ["selector"; "skip"; "limit"; "sort"; "fields"]))
  /\ (mango_all !! "sort" = (fun s : list sort_entry => JArr (entry_json <$> s)) <$> sort
      /\ mango_all !! "fields" = fields
      /\ mango_all !! "skip" = None
      /\ (forall key : string,
            is_Some (mango_all !! key) ->
            key ∈ ["selector"; "limit"; "sort"; "fields"])).
Proof.
  intros mango mango_all. unfold mango, mango_all, find_mango, find_all_mango,
    with_sort_fields.
  split; (split; [|split]); try (destruct sort, fields; by simplify_map_eq).
  - intros key [v Hv].
    destruct sort, fields;
      repeat (rewrite lookup_insert in Hv; case_decide; [subst; set_solver|]);
      apply lookup_singleton_Some in Hv as [<- _]; set_solver.
  - split; [destruct sort, fields; by simplify_map_eq|].
    intros key [v Hv].
    destruct sort, fields;
      repeat (rewrite lookup_insert in Hv; case_decide; [subst; set_solver|]);
      apply lookup_singleton_Some in Hv as [<- _]; set_solver.
Qed.

(** Running the selector loops a second time changes nothing. *)
Lemma augmented_idempotent (sort : option (list sort_entry)) (sel : dict) :
  augmented sort (augmented sort sel) = augmented sort sel.
Proof.
  apply map_eq. intros key.
  destruct (augmented sort sel !! key) as [v|] eqn:Hkey.
  - by apply augmented_kept.
  - apply augmented_absent; [|done].
    intros Hfield.
    destruct (augmented_has_sort_key sort sel key Hfield) as [v Hv]. congruence.
Qed.

(** X12: calling [find] again with the same selector and sort leaves the
    selector's dictionary as the first call left it, whatever the store
    answered in between. *)
Theorem find_again_keeps_selector (database database' : string)
    (selector : option loc) (fields fields' : option json)
    (sort : option (list sort_entry)) (page page_size page' page_size' : Z) (w : world) :
  let sel := default find_default_selector selector in
  let once := (find transport self database selector fields sort page page_size w).2 in
  let twice :=
    (find transport self database' selector fields' sort page' page_size' once).2 in
  heap twice !!! sel = heap once !!! sel.
Proof.
  intros sel once twice.
  destruct (find_frame transport self database selector fields sort page page_size w)
    as (Honce & _ & _).
  destruct (find_frame transport self database' selector fields' sort page' page_size' once)
    as (Htwice & _ & _).
  fold sel once in Honce. fold sel twice in Htwice.
  by rewrite Htwice, Honce, augmented_idempotent.
Qed.

(** X13: when the count query of [find_all] raises, or its response has
    no [total_rows] to read, [find_all] raises that error at once: nothing
    is POSTed and, unlike in [find], the selector has not been written
    to. *)
Theorem find_all_count_failure (database : string) (selector : option loc)
    (fields : option json) (sort : option (list sort_entry)) (w : world) :
  let count :=
    couch_query transport self ("/" ++ database ++ "/_all_docs") GET None in
  (forall (e : exn) (w1 : world),
      count w = (Raise e, w1) ->
      find_all transport self database selector fields sort w = (Raise e, w1)
      /\ heap w1 = heap w)
  /\ (forall (response : json) (e : exn) (w1 : world),
      count w = (Ok response, w1) ->
      getitem response "total_rows" = Raise e ->
      find_all transport self database selector fields sort w = (Raise e, w1)
      /\ heap w1 = heap w).
Proof.
  intros count. split.
  - intros e w1 Hcount. split.
    + unfold find_all. unfold bind at 1. fold count. by rewrite Hcount.
    + by apply couch_query_frame in Hcount as (Hh & _ & _).
  - intros response e w1 Hcount Hrows. split.
    + unfold find_all. unfold bind at 1. fold count. rewrite Hcount.
      unfold bind at 1. unfold lift at 1. by rewrite Hrows.
    + by apply couch_query_frame in Hcount as (Hh & _ & _).
Qed.

(** X14: once the count query has answered, [find_all] POSTs to
    [/{db}/_find] a query whose [limit] is the [total_rows] just read and
    whose selector is the augmented one; on a 2xx answer it returns that
    response's [docs]. *)
Theorem find_all_uses_total_rows (database : string) (selector : option loc)
    (fields : option json) (sort : option (list sort_entry))
    (k : nat) (w w1 : world) (nk n' : W) (counted limit : json)
    (status_code : Z) (body docs : json) :
  let sel := default find_all_default_selector selector in
  let sent := augmented sort (heap w !!! sel) in
  let mango := find_all_mango sent limit fields sort in
  let r := Request POST (couch_base_uri self ++ "/" ++ database ++ "/_find")
             (Some (JObj mango)) (connection_timeout self) in
  couch_query transport self ("/" ++ database ++ "/_all_docs") GET None w
    = (Ok counted, w1) ->
  getitem counted "total_rows" = Ok limit ->
  refused transport k (net w1) r = Some nk ->
  Z.of_nat k < max_retries self ->
  transport nk r = (Response status_code body, n') ->
  200 <= status_code < 300 ->
  getitem body "docs" = Ok docs ->
  (mango !! "limit" = Some limit /\ mango !! "selector" = Some (JObj sent))
  /\ exists w' : world,
       find_all transport self database selector fields sort w = (Ok docs, w')
       /\ wire w' = wire w1 ++ replicate (S k) r
       /\ net w' = n'.
Proof.
  intros sel sent mango r Hcount Hlimit Hk Hlt Ht Hstatus Hdocs.
  destruct (find_all_mango_lookup sent limit fields sort) as (Hsel & Hlim).
  split; [done|].
  destruct (find_all_run transport self database selector fields sort w w1 counted limit
              Hcount Hlimit) as (h' & _ & _ & Hrun).
  destruct (couch_query_answered transport self ("/" ++ database ++ "/_find") POST
              (Some (JObj mango)) k (with_heap h' w1) nk n' status_code body Hk Hlt Ht)
    as (w' & Heq & _ & Hn & Hw).
  exists w'. split; [|by split].
  rewrite Hrun. fold sel sent mango. unfold bind. rewrite Heq.
  rewrite (proj2 (Z.leb_le 200 status_code)) by lia.
  rewrite (proj2 (Z.ltb_lt status_code 300)) by lia.
  cbn [andb]. unfold lift. by rewrite Hdocs.
Qed.

End QueriesMore.

(** ** More on the document operations *)

Section DocumentsMore.

Context {W : Type}.
Variable transport : W -> request -> reply * W.
Variable self : CouchClient.

#[local] Arguments couch_query : simpl never.

(** Subscripting raises a [KeyError] or a [TypeError], nothing else. *)
Lemma getitem_raises (j : json) (key : string) (e : exn) :
  getitem j key = Raise e -> e = KeyError key \/ e = TypeError.
Proof.
  destruct j; simpl; try (intros [= <-]; by right).
  destruct (_ !! key); [done|]. intros [= <-]. by left.
Qed.

(** X15: [create_db] never raises the rejection with status 412: that
    one always leaves as the already-exists error. *)
Theorem create_db_never_raises_412 (database : string) (shards replicas : option Z)
    (partitioned : bool) (w w' : world) (message : json) (code : Z) :
  create_db transport self database shards replicas partitioned w
    = (Raise (CouchHTTPError message code), w') ->
  code <> 412.
Proof.
  unfold create_db, try_except_http, bind.
  destruct (couch_query transport self _ PUT _ w) as [[v|e|] w1]; [done| |done].
  destruct e as [message' code'| | | | |]; try done.
  destruct (code' =? 412)%Z eqn:Hcode; [done|].
  intros [= _ <- _]. by apply Z.eqb_neq.
Qed.

(** X16: every attempt of [create_db] is a PUT of [/{db}] whose body has
    [partitioned] as given, [q] exactly when shards are given, [n] exactly
    when replicas are given, and no other entry. *)
Theorem create_db_sends_options (database : string) (shards replicas : option Z)
    (partitioned : bool) (w : world) :
  let options := create_db_options shards replicas partitioned in
  (exists k : nat,
      wire (create_db transport self database shards replicas partitioned w).2
      = wire w ++ replicate k
          (Request PUT (couch_base_uri self ++ "/" ++ database)
             (Some (JObj options)) (connection_timeout self)))
  /\ options !! "partitioned" = Some (JBool partitioned)
  /\ options !! "q" = JNum <$> shards
  /\ options !! "n" = JNum <$> replicas
  /\ (forall key : string,
        is_Some (options !! key) -> key ∈ ["partitioned"; "q"; "n"]).
Proof.
  intros options. split.
  - unfold create_db, try_except_http, bind. fold options.
    destruct (couch_query transport self ("/" ++ database) PUT (Some (JObj options)) w)
      as [res w1] eqn:Hput.
    apply couch_query_frame in Hput as (_ & Hw & _).
    destruct res as [v|e|]; [done| |done].
    destruct e; try done. by destruct (code =? 412)%Z.
  - unfold options, create_db_options.
    split; [destruct shards, replicas; by simplify_map_eq|].
    split; [destruct shards, replicas; by simplify_map_eq|].
    split; [destruct shards, replicas; by simplify_map_eq|].
    intros key [v Hv].
    destruct shards, replicas;
      repeat (rewrite lookup_insert in Hv; case_decide; [subst; set_solver|]);
      apply lookup_singleton_Some in Hv as [<- _]; set_solver.
Qed.

(** X17: when the GET of [delete_document] yields a document whose
    [_rev] is a string, the DELETE goes to [/{db}/{id}?rev={rev}] and the
    call returns what that query returns; a 404 on the DELETE itself is
    swallowed like one on the GET when [strict] is clear; and a fetched
    document without a usable [_rev] raises the subscript's error in both
    modes, before any DELETE. *)
Theorem delete_document_deletes_revision (database doc_id : string)
    (strict : bool) (w : world) :
  let fetch := couch_query transport self ("/" ++ database ++ "/" ++ doc_id) GET None in
  let delete := fun rev : string =>
    couch_query transport self
      ("/" ++ database ++ "/" ++ doc_id ++ "?rev=" ++ rev) DELETE None in
  (forall (document body : json) (rev : string) (w1 w2 : world),
      fetch w = (Ok document, w1) ->
      getitem document "_rev" = Ok (JStr rev) ->
      delete rev w1 = (Ok body, w2) ->
      delete_document transport self database doc_id strict w = (Ok body, w2))
  /\ (forall (document message : json) (rev : string) (w1 w2 : world),
      strict = false ->
      fetch w = (Ok document, w1) ->
      getitem document "_rev" = Ok (JStr rev) ->
      delete rev w1 = (Raise (CouchHTTPError message 404), w2) ->
      delete_document transport self database doc_id strict w
        = (Ok (JBool false), w2))
  /\ (forall (document : json) (e : exn) (w1 : world),
      fetch w = (Ok document, w1) ->
      getitem document "_rev" = Raise e ->
      delete_document transport self database doc_id strict w = (Raise e, w1)).
Proof.
  intros fetch delete. split; [|split].
  - intros document body rev w1 w2 Hfetch Hrev Hdelete.
    unfold delete_document, try_except_http. unfold bind at 1.
    fold fetch. rewrite Hfetch.
    unfold bind at 1. unfold lift at 1. rewrite Hrev.
    unfold bind at 1. unfold lift, str_concat.
    fold (delete rev). by rewrite Hdelete.
  - intros document message rev w1 w2 -> Hfetch Hrev Hdelete.
    unfold delete_document, try_except_http. unfold bind at 1.
    fold fetch. rewrite Hfetch.
    unfold bind at 1. unfold lift at 1. rewrite Hrev.
    unfold bind at 1. unfold lift, str_concat.
    fold (delete rev). by rewrite Hdelete.
  - intros document e w1 Hfetch Hrev.
    unfold delete_document, try_except_http. unfold bind at 1.
    fold fetch. rewrite Hfetch.
    unfold bind at 1. unfold lift at 1. rewrite Hrev.
    by destruct (getitem_raises _ _ _ Hrev) as [-> | ->].
Qed.

(** X18: with [strict] clear, [delete_document] never raises a rejection
    with status 404, whichever of its two queries was rejected. *)
Theorem delete_document_never_raises_404 (database doc_id : string)
    (w w' : world) (message : json) (code : Z) :
  delete_document transport self database doc_id false w
    = (Raise (CouchHTTPError message code), w') ->
  code <> 404.
Proof.
  unfold delete_document, try_except_http.
  match goal with
  | |- context [bind ?m ?k w] => destruct (bind m k w) as [[v|e|] w1]
  end; [done| |done].
  destruct e as [message' code'| | | | |]; try done.
  cbn [orb]. destruct (code' =? 404)%Z eqn:Hcode; [done|].
  cbn [negb]. intros [= _ <- _]. by apply Z.eqb_neq.
Qed.

(** X19: when the revision lookup of [put_document] yields a document
    from which [_rev] cannot be read, the subscript's error is raised:
    nothing is PUT and the caller's dictionaries are as before. *)
Theorem put_document_lookup_without_rev (database doc_id : string) (document : loc)
    (w w1 : world) (in_document : json) (e : exn) :
  couch_query transport self ("/" ++ database ++ "/" ++ doc_id) GET None w
    = (Ok in_document, w1) ->
  getitem in_document "_rev" = Raise e ->
  put_document transport self database doc_id document true false w = (Raise e, w1)
  /\ heap w1 = heap w
  /\ (e = KeyError "_rev" \/ e = TypeError).
Proof.
  intros Hfetch Hrev. split; [|split].
  - unfold put_document. cbn [andb negb].
    unfold bind at 1. unfold try_except_http. unfold bind at 1. rewrite Hfetch.
    unfold bind at 1. unfold lift. rewrite Hrev.
    by destruct (getitem_raises _ _ _ Hrev) as [-> | ->].
  - by apply couch_query_frame in Hfetch as (Hh & _ & _).
  - by apply (getitem_raises in_document).
Qed.

(** X20: [get_server_version] returns the [version] entry of the
    response object, and [None] when the object has none; it never raises
    a [KeyError], whatever the store sends. *)
Theorem get_server_version_result (w : world) :
  (forall (d : dict) (w1 : world),
      couch_query transport self "/" GET None w = (Ok (JObj d), w1) ->
      get_server_version transport self w = (Ok (default JNull (d !! "version")), w1))
  /\ (forall key : string,
        (get_server_version transport self w).1 <> Raise (KeyError key)).
Proof.
  split.
  - intros d w1 Hquery. unfold get_server_version. unfold bind at 1.
    rewrite Hquery. unfold bind, lift, contains, getitem.
    by destruct (d !! "version").
  - intros key. unfold get_server_version. unfold bind at 1.
    destruct (couch_query transport self "/" GET None w) as [[response|e|] w1] eqn:Hquery.
    + unfold bind, lift.
      destruct response as [|b|n|s0|l|d]; try done.
      * cbn [contains]. by destruct (PyStr.contains _ _).
      * cbn [contains]. by destruct (existsb _ _).
      * cbn [contains getitem]. by destruct (d !! "version").
    + apply couch_query_loop_raises in Hquery
        as [(body & code & -> & _) | [-> | (name & ->)]]; done.
    + done.
Qed.

End DocumentsMore.

(** * Runs on the mock transports *)

Section Runs.

Import Mock.

Example endswith_examples :
  PyStr.endswith "http://localhost:5984/" "/" = true
  /\ PyStr.endswith "http://localhost:5984" "/" = false
  /\ PyStr.endswith "" "/" = false
  /\ PyStr.endswith "/" "//" = false.
Proof. repeat split. Qed.

Example drop_last_examples :
  PyStr.drop_last "http://localhost:5984/" = "http://localhost:5984"
  /\ PyStr.drop_last "/" = ""
  /\ PyStr.drop_last "" = "".
Proof. repeat split. Qed.

Example server_version :
  call scripted client GetServerVersion
    (start ∅ [Response 200 (JObj {[ "couchdb" := JStr "Welcome";
                                    "version" := JStr "3.3.3" ]})])
  = (Ok (JStr "3.3.3"),
     at_wire ∅ [] [Request GET "http://localhost:5984/" None 3000]).
Proof. reflexivity. Qed.

Example verbose_retries :
  couch_query scripted (set_verbose client true) "/db/x" GET None
    (start ∅ [ConnectionRefused; TimedOut; Response 200 stored])
  = (Ok stored,
     {| heap := ∅; net := []; wire := [get_x; get_x; get_x];
        stdout := ["Request (/db/x) was refused on try 0";
                   "Request (/db/x) timed out on try 1"] |}).
Proof. reflexivity. Qed.

Example delete_with_revision :
  call scripted client (DeleteDocument "db" "x" false)
    (start ∅ [Response 200 stored; Response 200 created])
  = (Ok created,
     at_wire ∅ []
       [get_x; Request DELETE "http://localhost:5984/db/x?rev=1-abc" None 3000]).
Proof. reflexivity. Qed.

Example refused_three_times :
  call refusing client (GetDocument "db" "x") (start ∅ tt)
  = (Raise (ConnectionError "Gave up connecting to CouchDB after 3 tries"),
     at_wire ∅ tt [get_x; get_x; get_x]).
Proof. reflexivity. Qed.

Example no_attempt_without_retries :
  call refusing (set_max_retries client (-1)) (GetDocument "db" "x") (start ∅ tt)
  = (Raise (ConnectionError "Gave up connecting to CouchDB after 0 tries"),
     start ∅ tt).
Proof. reflexivity. Qed.

Lemma retries_exhausted_refusing :
  exists (attempts : list request) (w' : world),
    call refusing client (PutDocument "db" "x" document true false)
      (start caller_heap tt) =
      (Raise (ConnectionError
                ("Gave up connecting to CouchDB after "
                 ++ PyStr.str (Z.of_nat (length attempts))
                 ++ " tries")%string), w')
    /\ wire w' = wire (start caller_heap tt) ++ attempts
    /\ length attempts = Z.to_nat (max_retries client).
Proof.
  apply (retries_exhausted refusing client).
  intros r. exists tt. reflexivity.
Defined.

Lemma rejection_ends_retries_second_attempt :
  exists w' : world,
    couch_query scripted client "/db/x" GET None
      (start ∅ [ConnectionRefused; Response 404 not_found; Response 200 stored])
    = (Raise (CouchHTTPError not_found 404), w')
    /\ wire w' = [] ++ replicate 2 get_x
    /\ net w' = [Response 200 stored].
Proof.
  apply (rejection_ends_retries scripted client "/db/x" GET None 1
           (start ∅ [ConnectionRefused; Response 404 not_found; Response 200 stored])
           [Response 404 not_found; Response 200 stored]);
    [reflexivity | vm_compute; reflexivity | reflexivity | lia].
Defined.

Example put_after_put_carries_revision :
  call scripted client (PutDocument "db" "x" document true false)
    (start caller_heap [Response 200 stored; Response 201 created])
  = (Ok created,
     at_wire {[ document := {[ "_rev" := JStr "1-abc"; "a" := JNum 2 ]} ]} []
       [get_x; put_x {[ "_rev" := JStr "1-abc"; "a" := JNum 2 ]}]).
Proof. reflexivity. Qed.

Lemma put_document_revision_lookup_runs :
  (put_document scripted client "db" "x" document true false
     (start caller_heap [Response 200 stored; Response 201 created])
   = couch_query scripted client "/db/x" PUT
       (Some (JObj {[ "_rev" := JStr "1-abc"; "a" := JNum 2 ]}))
       (at_wire {[ document := {[ "_rev" := JStr "1-abc"; "a" := JNum 2 ]} ]}
          [Response 201 created] [get_x]))
  /\ (put_document scripted client "db" "x" document true false
        (start caller_heap [Response 404 not_found; Response 201 created])
      = couch_query scripted client "/db/x" PUT (Some (JObj {[ "a" := JNum 2 ]}))
          (at_wire caller_heap [Response 201 created] [get_x]))
  /\ (put_document scripted client "db" "x" document true false
        (start caller_heap [Response 403 forbidden; Response 201 created])
      = (Raise (CouchHTTPError forbidden 403),
         at_wire caller_heap [Response 201 created] [get_x]))
  /\ (put_document scripted client "db" "x" document true true
        (start caller_heap [Response 201 created])
      = couch_query scripted client "/db/x" PUT (Some (JObj {[ "a" := JNum 2 ]}))
          (start caller_heap [Response 201 created])
      /\ exists k : nat,
           wire (put_document scripted client "db" "x" document true true
                   (start caller_heap [Response 201 created])).2
           = [] ++ replicate k (put_x {[ "a" := JNum 2 ]})).
Proof.
  split; [|split; [|split]].
  - apply (proj1 (put_document_revision_lookup scripted client "db" "x" document
                    (start caller_heap [Response 200 stored; Response 201 created]))
             stored (JStr "1-abc") (at_wire caller_heap [Response 201 created] [get_x]));
      reflexivity.
  - apply (proj1 (proj2 (put_document_revision_lookup scripted client "db" "x" document
                    (start caller_heap [Response 404 not_found; Response 201 created])))
             not_found (at_wire caller_heap [Response 201 created] [get_x]));
      reflexivity.
  - apply (proj1 (proj2 (proj2 (put_document_revision_lookup scripted client "db" "x"
                    document
                    (start caller_heap [Response 403 forbidden; Response 201 created]))))
             forbidden 403 (at_wire caller_heap [Response 201 created] [get_x]));
      [lia | reflexivity].
  - apply (proj2 (proj2 (proj2 (put_document_revision_lookup scripted client "db" "x"
                    document (start caller_heap [Response 201 created]))))
             true true).
    by left.
Defined.

Lemma put_document_stamps_caller_run :
  let after :=
    (put_document scripted client "db" "x" document true false
       (start caller_heap [Response 200 stored; Response 409 forbidden])).2 in
  heap after !!! document = <[ "_rev" := JStr "1-abc" ]> (caller_heap !!! document)
  /\ (heap after !!! document) !! "_rev" = Some (JStr "1-abc")
  /\ (forall l : loc, l <> document -> heap after !! l = caller_heap !! l).
Proof.
  apply (put_document_stamps_caller scripted client "db" "x" document
           (start caller_heap [Response 200 stored; Response 409 forbidden])
           (at_wire caller_heap [Response 409 forbidden] [get_x])
           stored (JStr "1-abc")); reflexivity.
Defined.

Example patch_sends_merged_document :
  call scripted client (PatchDocument "db" "x" diff false)
    (start ∅ [Response 200 stored; Response 201 created])
  = (Ok created,
     at_wire ∅ []
       [get_x;
        put_x {[ "_rev" := JStr "1-abc"; "a" := JNum 1; "b" := JNum 3;
                 "c" := JNum 4 ]}]).
Proof. reflexivity. Qed.

Lemma patch_document_merges_runs :
  (patch_document scripted client "db" "x" diff false
     (start ∅ [Response 200 stored; Response 201 created])
   = couch_query scripted client "/db/x" PUT (Some (JObj (diff ∪ stored_fields)))
       (at_wire ∅ [Response 201 created] [get_x])
   /\ (forall (key : string) (v : json),
         diff !! key = Some v -> (diff ∪ stored_fields) !! key = Some v)
   /\ (forall key : string,
         diff !! key = None -> (diff ∪ stored_fields) !! key = stored_fields !! key))
  /\ (patch_document scripted client "db" "x" diff false
        (start ∅ [Response 404 not_found; Response 201 created])
      = couch_query scripted client "/db/x" PUT (Some (JObj diff))
          (at_wire ∅ [Response 201 created] [get_x]))
  /\ (patch_document scripted client "db" "x" diff true
        (start ∅ [Response 404 not_found; Response 201 created])
      = (Raise (CouchHTTPError not_found 404),
         at_wire ∅ [Response 201 created] [get_x]))
  /\ (patch_document scripted client "db" "x" diff false
        (start ∅ [Response 403 forbidden; Response 201 created])
      = (Raise (CouchHTTPError forbidden 403),
         at_wire ∅ [Response 201 created] [get_x])).
Proof.
  split; [|split; [|split]].
  - apply (proj1 (patch_document_merges scripted client "db" "x" diff false
                    (start ∅ [Response 200 stored; Response 201 created]))
             stored_fields (at_wire ∅ [Response 201 created] [get_x])).
    reflexivity.
  - apply (proj1 (proj2 (patch_document_merges scripted client "db" "x" diff false
                    (start ∅ [Response 404 not_found; Response 201 created])))
             not_found (at_wire ∅ [Response 201 created] [get_x]));
      reflexivity.
  - apply (proj1 (proj2 (proj2 (patch_document_merges scripted client "db" "x" diff true
                    (start ∅ [Response 404 not_found; Response 201 created]))))
             not_found (at_wire ∅ [Response 201 created] [get_x]));
      reflexivity.
  - apply (proj2 (proj2 (proj2 (patch_document_merges scripted client "db" "x" diff false
                    (start ∅ [Response 403 forbidden; Response 201 created]))))
             forbidden 403 (at_wire ∅ [Response 201 created] [get_x]));
      [lia | reflexivity].
Defined.

Example delete_missing_returns_false :
  call scripted client (DeleteDocument "db" "x" false)
    (start ∅ [Response 404 not_found; Response 200 created])
  = (Ok (JBool false), at_wire ∅ [Response 200 created] [get_x]).
Proof. reflexivity. Qed.

Lemma delete_document_tolerates_missing_runs :
  (delete_document scripted client "db" "x" false
     (start ∅ [Response 404 not_found; Response 200 created])
   = (Ok (JBool false), at_wire ∅ [Response 200 created] [get_x])
   /\ exists attempts : list request,
        wire (at_wire ∅ [Response 200 created] [get_x]) = [] ++ attempts
        /\ Forall (fun r => req_method r <> DELETE) attempts)
  /\ (delete_document scripted client "db" "x" true
        (start ∅ [Response 404 not_found; Response 200 created])
      = (Raise (CouchHTTPError not_found 404),
         at_wire ∅ [Response 200 created] [get_x]))
  /\ (delete_document scripted client "db" "x" false
        (start ∅ [Response 403 forbidden; Response 200 created])
      = (Raise (CouchHTTPError forbidden 403),
         at_wire ∅ [Response 200 created] [get_x]))
  /\ (delete_document scripted client "db" "x" false
        (start ∅ [Response 200 stored; Response 409 forbidden])
      = (Raise (CouchHTTPError forbidden 409),
         at_wire ∅ []
           [get_x;
            Request DELETE "http://localhost:5984/db/x?rev=1-abc" None 3000])).
Proof.
  split; [|split; [|split]].
  - apply (proj1 (delete_document_tolerates_missing scripted client "db" "x" false
                    (start ∅ [Response 404 not_found; Response 200 created]))
             not_found (at_wire ∅ [Response 200 created] [get_x]));
      reflexivity.
  - apply (proj1 (proj2 (delete_document_tolerates_missing scripted client "db" "x" true
                    (start ∅ [Response 404 not_found; Response 200 created])))
             not_found (at_wire ∅ [Response 200 created] [get_x]));
      reflexivity.
  - apply (proj1 (proj2 (proj2 (delete_document_tolerates_missing scripted client
                    "db" "x" false
                    (start ∅ [Response 403 forbidden; Response 200 created]))))
             forbidden 403 (at_wire ∅ [Response 200 created] [get_x]));
      [lia | reflexivity].
  - apply (proj2 (proj2 (proj2 (delete_document_tolerates_missing scripted client
                    "db" "x" false
                    (start ∅ [Response 200 stored; Response 409 forbidden]))))
             stored forbidden "1-abc" 409
             (at_wire ∅ [Response 409 forbidden] [get_x]));
      [lia | reflexivity | reflexivity | reflexivity].
Defined.

Example create_existing_database :
  call scripted client (CreateDb "db" (Some 8) None false)
    (start ∅ [Response 412 file_exists])
  = (Raise (ObjectAlreadyExistsException "Database already exists" "db"),
     at_wire ∅ [] [put_db {[ "partitioned" := JBool false; "q" := JNum 8 ]}]).
Proof. reflexivity. Qed.

Lemma create_db_outcomes_runs :
  (create_db scripted client "db" None None false (start ∅ [Response 201 created])
   = (Ok (JBool true),
      at_wire ∅ [] [put_db {[ "partitioned" := JBool false ]}]))
  /\ (create_db scripted client "db" None None false (start ∅ [Response 412 file_exists])
      = (Raise (ObjectAlreadyExistsException "Database already exists" "db"),
         at_wire ∅ [] [put_db {[ "partitioned" := JBool false ]}]))
  /\ (create_db scripted client "db" None None false (start ∅ [Response 403 forbidden])
      = (Raise (CouchHTTPError forbidden 403),
         at_wire ∅ [] [put_db {[ "partitioned" := JBool false ]}])).
Proof.
  split; [|split].
  - apply (proj1 (create_db_outcomes scripted client "db" None None false
                    (start ∅ [Response 201 created])) created).
    reflexivity.
  - apply (proj1 (proj2 (create_db_outcomes scripted client "db" None None false
                    (start ∅ [Response 412 file_exists]))) file_exists).
    reflexivity.
  - apply (proj2 (proj2 (create_db_outcomes scripted client "db" None None false
                    (start ∅ [Response 403 forbidden]))) forbidden 403);
      [lia | reflexivity].
Defined.

Example find_augments_empty_selector :
  call scripted client (Find "db" (Some selector) None (Some by_name) 2 20)
    (start selector_heap [Response 200 found])
  = (Ok (JArr [stored]),
     at_wire {[ selector := name_exists ]} [] [post_find mango_by_name]).
Proof. reflexivity. Qed.


(** Two calls of [find] that leave the selector out: the second asks for
    no sort and still sends the field the first one added. *)
Example default_selector_remembers :
  (find scripted client "db" None None None 0 20
     (find scripted client "db" None None (Some by_name) 0 20
        (start ∅ [Response 200 found; Response 200 found])).2).2
  = at_wire {[ find_default_selector := name_exists ]} []
      [post_find {[ "selector" := JObj name_exists;
                    "skip" := JNum 0;
                    "limit" := JNum 20;
                    "sort" := JArr [JObj {[ "name" := JStr "asc" ]}] ]};
       post_find {[ "selector" := JObj name_exists;
                    "skip" := JNum 0;
                    "limit" := JNum 20 ]}].
Proof. reflexivity. Qed.





(** A URI that ends with two separators keeps one of them. *)
Lemma base_uri_keeps_second_separator :
  couch_base_uri (init "http://localhost:5984//") = "http://localhost:5984/"
  /\ PyStr.endswith (couch_base_uri (init "http://localhost:5984//")) "/" = true.
Proof. split; reflexivity. Qed.

Lemma base_uri_strips_one_separator_run :
  "http://localhost:5984/" = (couch_base_uri (init "http://localhost:5984/") ++ "/")%string
  /\ couch_base_uri (init "http://localhost:5984") = "http://localhost:5984"
  /\ PyStr.endswith (couch_base_uri (init "http://localhost:5984/")) "/" = false
  /\ extends_wire (targets_base client) (start caller_heap tt)
       (call refusing client (PutDocument "db" "x" document true false)
          (start caller_heap tt)).2.
Proof.
  split; [|split; [|split]].
  - apply (proj1 (base_uri_strips_one_separator "http://localhost:5984/")).
    reflexivity.
  - apply (proj1 (proj2 (base_uri_strips_one_separator "http://localhost:5984"))).
    reflexivity.
  - apply (proj1 (proj2 (proj2 (base_uri_strips_one_separator "http://localhost:5984/")))).
    reflexivity.
  - apply (proj2 (proj2 (proj2 (base_uri_strips_one_separator "http://localhost:5984/")))).
Defined.

(** ** Runs for the further properties *)

Lemma couch_query_returns_body_run :
  exists w' : world,
    couch_query scripted client "/db/x" GET None
      (start ∅ [ConnectionRefused; Response 200 stored; Response 200 created])
    = (Ok stored, w')
    /\ wire w' = [] ++ replicate 2 (request_of client "/db/x" GET None)
    /\ net w' = [Response 200 created].
Proof.
  apply (couch_query_returns_body scripted client "/db/x" GET None 1
           (start ∅ [ConnectionRefused; Response 200 stored; Response 200 created])
           [Response 200 stored; Response 200 created] [Response 200 created]
           200 stored);
    [reflexivity | vm_compute; reflexivity | reflexivity | lia].
Defined.

Lemma couch_query_raises_only_run :
  ((exists (body : json) (code : Z),
       CouchHTTPError not_found 404 = CouchHTTPError body code
       /\ ~ (200 <= code < 300))
   \/ CouchHTTPError not_found 404
      = ConnectionError
          ("Gave up connecting to CouchDB after "
           ++ PyStr.str (Z.max 0 (max_retries client)) ++ " tries")%string
   \/ (exists name : string, CouchHTTPError not_found 404 = TransportError name))
  /\ (exists w' : world,
        couch_query scripted client "/db/x" GET None
          (start ∅ [ConnectionRefused; Failed "JSONDecodeError"; Response 200 stored])
        = (Raise (TransportError "JSONDecodeError"), w')
        /\ wire w' = [] ++ replicate 2 (request_of client "/db/x" GET None)
        /\ net w' = [Response 200 stored]).
Proof.
  split.
  - apply (proj1 (couch_query_raises_only scripted client "/db/x" GET None
                    (start ∅ [Response 404 not_found]))
             (at_wire ∅ [] [get_x])).
    reflexivity.
  - apply (proj2 (couch_query_raises_only scripted client "/db/x" GET None
                    (start ∅ [ConnectionRefused; Failed "JSONDecodeError";
                              Response 200 stored]))
             1%nat [Failed "JSONDecodeError"; Response 200 stored]
             [Response 200 stored] "JSONDecodeError");
      [vm_compute; reflexivity | reflexivity | reflexivity].
Defined.

Lemma no_attempt_without_retries_left_run :
  exists w' : world,
    call scripted (set_max_retries client 0) (PutDocument "db" "x" document true false)
      (start caller_heap [Response 200 stored])
    = (Raise (ConnectionError "Gave up connecting to CouchDB after 0 tries"), w')
    /\ wire w' = [] /\ net w' = [Response 200 stored].
Proof.
  apply (no_attempt_without_retries_left scripted (set_max_retries client 0)
           (PutDocument "db" "x" document true false)
           (start caller_heap [Response 200 stored])).
  vm_compute. discriminate.
Defined.

Lemma quiet_unless_verbose_run :
  stdout (call scripted client (GetDocument "db" "x")
            (start ∅ [ConnectionRefused; TimedOut; Response 200 stored])).2
  = [].
Proof.
  apply (quiet_unless_verbose scripted client (GetDocument "db" "x")
           (start ∅ [ConnectionRefused; TimedOut; Response 200 stored])).
  reflexivity.
Defined.

Lemma put_document_touches_only_rev_run :
  (heap (put_document scripted client "db" "x" document true false
           (start caller_heap [Response 200 stored; Response 201 created])).2
     !!! document) !! "a"
  = (caller_heap !!! document) !! "a".
Proof.
  apply (put_document_touches_only_rev scripted client "db" "x" document true false
           (start caller_heap [Response 200 stored; Response 201 created])
           document "a").
  discriminate.
Defined.

Lemma call_writes_only_its_dictionary_run :
  heap (call scripted client (Find "db" (Some selector) None (Some by_name) 0 20)
          (start caller_heap [Response 200 found])).2 !!! document
  = caller_heap !!! document.
Proof.
  apply (call_writes_only_its_dictionary scripted client
           (Find "db" (Some selector) None (Some by_name) 0 20)
           (start caller_heap [Response 200 found]) document).
  discriminate.
Defined.

Lemma verbose_logs_each_failure_run :
  (exists lines : list string,
      stdout (couch_query scripted (set_verbose client true) "/db/x" GET None
                (start ∅ [ConnectionRefused; TimedOut; Response 200 stored])).2
        = [] ++ lines
      /\ length lines = 2%nat
      /\ Forall (fun line : string =>
                   exists rest : string, line = ("Request (" ++ "/db/x" ++ rest)%string)
           lines)
  /\ (exists lines : list string,
        stdout (couch_query scripted (set_verbose client true) "/db/x" GET None
                  (start ∅ [])).2
          = [] ++ lines
        /\ length lines = Z.to_nat (max_retries (set_verbose client true))
        /\ Forall (fun line : string =>
                     exists rest : string, line = ("Request (" ++ "/db/x" ++ rest)%string)
             lines).
Proof.
  split.
  - apply (proj1 (verbose_logs_each_failure scripted (set_verbose client true)
                    "/db/x" GET None
                    (start ∅ [ConnectionRefused; TimedOut; Response 200 stored])
                    eq_refl)
             2%nat [Response 200 stored] [] 200 stored);
      [reflexivity | vm_compute; reflexivity | reflexivity].
  - apply (proj2 (verbose_logs_each_failure scripted (set_verbose client true)
                    "/db/x" GET None (start ∅ []) eq_refl) []).
    reflexivity.
Defined.

Lemma mango_optional_entries_run :
  let mango := find_mango name_exists None (Some by_name) 2 20 in
  let mango_all := find_all_mango name_exists (JNum 1) None (Some by_name) in
  (mango !! "sort" = Some (JArr (entry_json <$> by_name))
   /\ mango !! "fields" = None
   /\ (forall key : string,
         is_Some (mango !! key) ->
         key ∈ ["selector"; "skip"; "limit"; "sort"; "fields"]))
  /\ (mango_all !! "sort" = Some (JArr (entry_json <$> by_name))
      /\ mango_all !! "fields" = None
      /\ mango_all !! "skip" = None
      /\ (forall key : string,
            is_Some (mango_all !! key) ->
            key ∈ ["selector"; "limit"; "sort"; "fields"])).
Proof.
  exact (mango_optional_entries name_exists (JNum 1) None (Some by_name) 2 20).
Defined.

Lemma find_all_count_failure_run :
  (find_all scripted client "db" (Some selector) None (Some by_name)
     (start selector_heap [Response 500 forbidden; Response 200 found])
   = (Raise (CouchHTTPError forbidden 500),
      at_wire selector_heap [Response 200 found] [get_all_docs])
   /\ heap (at_wire selector_heap [Response 200 found] [get_all_docs])
      = selector_heap)
  /\ (find_all scripted client "db" (Some selector) None (Some by_name)
        (start selector_heap [Response 200 created; Response 200 found])
      = (Raise (KeyError "total_rows"),
         at_wire selector_heap [Response 200 found] [get_all_docs])
      /\ heap (at_wire selector_heap [Response 200 found] [get_all_docs])
         = selector_heap).
Proof.
  split.
  - apply (proj1 (find_all_count_failure scripted client "db" (Some selector) None
                    (Some by_name)
                    (start selector_heap [Response 500 forbidden; Response 200 found]))).
    reflexivity.
  - apply (proj2 (find_all_count_failure scripted client "db" (Some selector) None
                    (Some by_name)
                    (start selector_heap [Response 200 created; Response 200 found]))
             created);
      reflexivity.
Defined.

Lemma find_all_uses_total_rows_run :
  let mango := find_all_mango name_exists (JNum 1) None (Some by_name) in
  (mango !! "limit" = Some (JNum 1) /\ mango !! "selector" = Some (JObj name_exists))
  /\ exists w' : world,
       find_all scripted client "db" (Some selector) None (Some by_name)
         (start selector_heap [Response 200 counted; Response 200 found])
       = (Ok (JArr [stored]), w')
       /\ wire w' = [get_all_docs] ++ replicate 1 (post_find mango)
       /\ net w' = [].
Proof.
  apply (find_all_uses_total_rows scripted client "db" (Some selector) None
           (Some by_name) 0
           (start selector_heap [Response 200 counted; Response 200 found])
           (at_wire selector_heap [Response 200 found] [get_all_docs])
           [Response 200 found] [] counted (JNum 1) 200 found (JArr [stored]));
    [reflexivity | reflexivity | reflexivity | vm_compute; reflexivity
    | reflexivity | lia | reflexivity].
Defined.

Lemma create_db_never_raises_412_run :
  create_db scripted client "db" None None false (start ∅ [Response 403 forbidden])
  = (Raise (CouchHTTPError forbidden 403),
     at_wire ∅ [] [put_db {[ "partitioned" := JBool false ]}])
  /\ (403 =? 412)%Z = false.
Proof.
  split; [reflexivity|].
  apply Z.eqb_neq.
  apply (create_db_never_raises_412 scripted client "db" None None false
           (start ∅ [Response 403 forbidden])
           (at_wire ∅ [] [put_db {[ "partitioned" := JBool false ]}])
           forbidden 403).
  reflexivity.
Defined.

Lemma create_db_sends_options_run :
  let options := create_db_options (Some 8) None false in
  (exists k : nat,
      wire (create_db scripted client "db" (Some 8) None false
              (start ∅ [Response 201 created])).2
      = [] ++ replicate k (put_db options))
  /\ options !! "partitioned" = Some (JBool false)
  /\ options !! "q" = Some (JNum 8)
  /\ options !! "n" = None
  /\ (forall key : string,
        is_Some (options !! key) -> key ∈ ["partitioned"; "q"; "n"]).
Proof.
  exact (create_db_sends_options scripted client "db" (Some 8) None false
           (start ∅ [Response 201 created])).
Defined.

Lemma delete_document_deletes_revision_run :
  (delete_document scripted client "db" "x" true
     (start ∅ [Response 200 stored; Response 200 created])
   = (Ok created,
      at_wire ∅ []
        [get_x; Request DELETE "http://localhost:5984/db/x?rev=1-abc" None 3000]))
  /\ (delete_document scripted client "db" "x" false
        (start ∅ [Response 200 stored; Response 404 not_found])
      = (Ok (JBool false),
         at_wire ∅ []
           [get_x; Request DELETE "http://localhost:5984/db/x?rev=1-abc" None 3000]))
  /\ (delete_document scripted client "db" "x" false
        (start ∅ [Response 200 created; Response 200 created])
      = (Raise (KeyError "_rev"), at_wire ∅ [Response 200 created] [get_x])).
Proof.
  split; [|split].
  - apply (proj1 (delete_document_deletes_revision scripted client "db" "x" true
                    (start ∅ [Response 200 stored; Response 200 created]))
             stored created "1-abc" (at_wire ∅ [Response 200 created] [get_x]));
      reflexivity.
  - apply (proj1 (proj2 (delete_document_deletes_revision scripted client "db" "x" false
                    (start ∅ [Response 200 stored; Response 404 not_found])))
             stored not_found "1-abc" (at_wire ∅ [Response 404 not_found] [get_x]));
      reflexivity.
  - apply (proj2 (proj2 (delete_document_deletes_revision scripted client "db" "x" false
                    (start ∅ [Response 200 created; Response 200 created])))
             created);
      reflexivity.
Defined.

Lemma delete_document_never_raises_404_run :
  delete_document scripted client "db" "x" false (start ∅ [Response 403 forbidden])
  = (Raise (CouchHTTPError forbidden 403), at_wire ∅ [] [get_x])
  /\ (403 =? 404)%Z = false.
Proof.
  split; [reflexivity|].
  apply Z.eqb_neq.
  apply (delete_document_never_raises_404 scripted client "db" "x"
           (start ∅ [Response 403 forbidden])
           (at_wire ∅ [] [get_x]) forbidden 403).
  reflexivity.
Defined.

Lemma put_document_lookup_without_rev_run :
  put_document scripted client "db" "x" document true false
    (start caller_heap [Response 200 created; Response 201 created])
  = (Raise (KeyError "_rev"), at_wire caller_heap [Response 201 created] [get_x])
  /\ heap (at_wire caller_heap [Response 201 created] [get_x]) = caller_heap
  /\ (KeyError "_rev" = KeyError "_rev" \/ KeyError "_rev" = TypeError).
Proof.
  apply (put_document_lookup_without_rev scripted client "db" "x" document
           (start caller_heap [Response 200 created; Response 201 created])
           (at_wire caller_heap [Response 201 created] [get_x]) created);
    reflexivity.
Defined.

Lemma get_server_version_result_run :
  get_server_version scripted client
    (start ∅ [Response 200 (JObj {[ "version" := JStr "3.3.3" ]})])
  = (Ok (JStr "3.3.3"),
     at_wire ∅ [] [Request GET "http://localhost:5984/" None 3000])
  /\ get_server_version scripted client (start ∅ [Response 200 created])
     = (Ok JNull, at_wire ∅ [] [Request GET "http://localhost:5984/" None 3000]).
Proof.
  split.
  - rewrite (proj1 (get_server_version_result scripted client
                      (start ∅ [Response 200 (JObj {[ "version" := JStr "3.3.3" ]})]))
               {[ "version" := JStr "3.3.3" ]}
               (at_wire ∅ [] [Request GET "http://localhost:5984/" None 3000]))
      by reflexivity.
    reflexivity.
  - rewrite (proj1 (get_server_version_result scripted client
                      (start ∅ [Response 200 created]))
               {[ "ok" := JBool true; "id" := JStr "x"; "rev" := JStr "2-def" ]}
               (at_wire ∅ [] [Request GET "http://localhost:5984/" None 3000]))
      by reflexivity.
    reflexivity.
Defined.

End Runs.
